(** * BattOr power-trace importer and long-tasks metric

    A shallow embedding of
    [third_party/traceviewer-js/extras/importer/battor_importer.js] and of the
    long-tasks metric ([metrics/system_health/long_tasks_metric.js]), with the
    parts of the JavaScript run time they rely on: strings as sequences of
    UTF-16 code units, a backtracking regular-expression matcher with capture
    groups, and Numbers as IEEE 754 binary64 values. *)

From Stdlib Require Import Ascii String.
From Stdlib Require Import List Bool Arith ZArith NArith Lia.
From Stdlib Require Import Floats.SpecFloat.
Import ListNotations.

Set Implicit Arguments.

(** ** JavaScript strings *)

Module JSString.

(** A string is a sequence of UTF-16 code units. *)
Definition char := N.
Definition jsstring := list char.

(** A string literal of the source, given in ASCII. *)
Definition js (s : string) : jsstring :=
  map N_of_ascii (list_ascii_of_string s).

Definition chr (a : ascii) : char := N_of_ascii a.

(** WhiteSpace and LineTerminator of ECMAScript: the code units removed by
    [String.prototype.trim] and matched by [\s]. *)
Definition isWhiteSpace (c : char) : bool :=
  ((9 <=? c) && (c <=? 13) || (c =? 32) || (c =? 160) || (c =? 5760)
   || (8192 <=? c) && (c <=? 8202) || (c =? 8232) || (c =? 8233)
   || (c =? 8239) || (c =? 8287) || (c =? 12288) || (c =? 65279))%N.

(** [\d] *)
Definition isDigit (c : char) : bool := ((48 <=? c) && (c <=? 57))%N.

(** [\S] *)
Definition isNonWhiteSpace (c : char) : bool := negb (isWhiteSpace c).

Fixpoint dropWhile (p : char -> bool) (s : jsstring) : jsstring :=
  match s with
  | [] => []
  | c :: s' => if p c then dropWhile p s' else s
  end.

Definition trimStart (s : jsstring) : jsstring := dropWhile isWhiteSpace s.
Definition trimEnd (s : jsstring) : jsstring :=
  rev (dropWhile isWhiteSpace (rev s)).

(** [String.prototype.trim] *)
Definition trim (s : jsstring) : jsstring := trimEnd (trimStart s).

(** [String.prototype.startsWith] *)
Fixpoint startsWith (s prefix : jsstring) {struct prefix} : bool :=
  match prefix, s with
  | [], _ => true
  | _ :: _, [] => false
  | p :: prefix', c :: s' => (c =? p)%N && startsWith s' prefix'
  end.

(** [s.split(sep)] for a one-character separator: the pieces between the
    separators, so one more piece than there are separators. *)
Fixpoint split (sep : char) (s : jsstring) : list jsstring :=
  match s with
  | [] => [[]]
  | c :: s' =>
      if (c =? sep)%N then [] :: split sep s'
      else match split sep s' with
           | [] => [[c]]
           | piece :: pieces => (c :: piece) :: pieces
           end
  end.

Definition newline : char := 10%N.

End JSString.

(** ** Regular expressions *)

Module RegExp.
Import JSString.

(** The constructs the two patterns of the importer are written with.
    A non-capturing group [(?:r)] is plain nesting. *)
Inductive regex : Type :=
| Empty                      (* the empty pattern *)
| Chr (a : char)             (* a literal character *)
| Class (p : char -> bool)   (* \d, \s, \S *)
| Bol                        (* ^ *)
| Eol                        (* $ *)
| Cat (r1 r2 : regex)        (* r1 r2 *)
| Opt (r : regex)            (* r? *)
| Plus (r : regex)           (* r+ *)
| Group (g : nat) (r : regex). (* the g-th capturing group (r) *)

(** The capture array: entry [g] is [None] while group [g] is undefined. *)
Definition captures := nat -> option jsstring.
Definition no_captures : captures := fun _ => None.
Definition set_capture (g : nat) (s : jsstring) (c : captures) : captures :=
  fun j => if Nat.eqb j g then Some s else c j.

(** What remains to be matched: called with the index reached, the rest of
    the input and the captures so far. *)
Definition continuation := nat -> jsstring -> captures -> option captures.

Definition matcher :=
  nat -> jsstring -> captures -> continuation -> option captures.

(** One or more greedy repetitions of [m], then [k]: after each match of
    [m] another repetition is tried first and [k] only when that fails.
    [n] bounds the repetitions still possible (each one uses input). *)
Fixpoint greedy (m : matcher) (k : continuation) (n : nat) (i : nat)
         (s : jsstring) (c : captures) {struct n} : option captures :=
  m i s c
    (fun i' s' c' =>
       match n with
       | O => k i' s' c'
       | S n' =>
           match greedy m k n' i' s' c' with
           | Some res => Some res
           | None => k i' s' c'
           end
       end).

(** The backtracking matcher of the language specification, in
    continuation-passing style: [run r i s c k] matches [r] at index [i],
    where [s] is the input from [i] on, and then calls [k]; when [k] fails
    the next alternative of [r] is tried.  Neither pattern has the
    multiline flag, so [^] holds at index 0 only and [$] at the end of the
    input only. *)
Fixpoint run (r : regex) (i : nat) (s : jsstring) (c : captures)
         (k : continuation) {struct r} : option captures :=
  match r with
  | Empty => k i s c
  | Chr a =>
      match s with
      | x :: s' => if (x =? a)%N then k (S i) s' c else None
      | [] => None
      end
  | Class p =>
      match s with
      | x :: s' => if p x then k (S i) s' c else None
      | [] => None
      end
  | Bol => if Nat.eqb i 0 then k i s c else None
  | Eol => match s with [] => k i s c | _ :: _ => None end
  | Cat r1 r2 => run r1 i s c (fun i' s' c' => run r2 i' s' c' k)
  | Opt r1 =>
      match run r1 i s c k with
      | Some res => Some res
      | None => k i s c
      end
  | Plus r1 => greedy (run r1) k (length s) i s c
  | Group g r1 =>
      run r1 i s c
          (fun i' s' c' => k i' s' (set_capture g (firstn (i' - i) s) c'))
  end.

(** The match is tried at every start index in turn, from 0 (the patterns
    are neither global nor sticky, so [lastIndex] is not consulted). *)
Fixpoint scan (r : regex) (i : nat) (s : jsstring) : option captures :=
  match run r i s no_captures
            (fun i' _ c' => Some (set_capture 0 (firstn (i' - i) s) c')) with
  | Some res => Some res
  | None =>
      match s with
      | [] => None
      | _ :: s' => scan r (S i) s'
      end
  end.

(** [RegExp.prototype.exec]: the capture array, or [None] for [null]. *)
Definition exec (r : regex) (s : jsstring) : option captures := scan r 0 s.

(** [RegExp.prototype.test] *)
Definition test (r : regex) (s : jsstring) : bool :=
  match exec r s with Some _ => true | None => false end.

(** A run of literal characters. *)
Fixpoint literal (s : jsstring) : regex :=
  match s with
  | [] => Empty
  | a :: s' => Cat (Chr a) (literal s')
  end.

End RegExp.

(** ** JavaScript Numbers *)

Module JSNumber.
Import JSString.

(** A Number is an IEEE 754 binary64 value: 53 bits of precision, and
    infinities at exponent 1024. *)
Definition prec : Z := 53.
Definition emax : Z := 1024.
Definition number := spec_float.

Definition NaN : number := S754_nan.

(** [x < y], [x <= y], [x * y], [x / y] *)
Definition lt (x y : number) : bool := SFltb x y.
Definition mul (x y : number) : number := SFmul prec emax x y.
Definition div (x y : number) : number := SFdiv prec emax x y.

(** The Number of an integer literal of the source. *)
Definition ofZ (z : Z) : number := binary_normalize prec emax z 0 false.

(** The Number value of the decimal [(-1)^neg * m * 10^-k]: the quotient
    of the two integers, rounded once, to nearest with ties to even. *)
Definition ofDecimal (neg : bool) (m : N) (k : nat) : number :=
  match m with
  | N0 => S754_zero neg
  | Npos p =>
      let '(q, e, l) :=
        SFdiv_core_binary prec emax (Zpos p) 0 (10 ^ Z.of_nat k) 0 in
      binary_round_aux prec emax neg q e l
  end.

(** The longest prefix of [s] made of characters in [p], and the rest. *)
Fixpoint span (p : char -> bool) (s : jsstring) : jsstring * jsstring :=
  match s with
  | [] => ([], [])
  | c :: s' =>
      if p c then let '(w, rest) := span p s' in (c :: w, rest)
      else ([], s)
  end.

(** The integer a run of decimal digits denotes. *)
Definition digitsValue (ds : jsstring) : N :=
  fold_left (fun acc d => (10 * acc + (d - 48))%N) ds 0%N.

(** A decimal with a point: an optional minus sign, digits, a point,
    digits, and nothing else.  The result is the sign, the digits before
    the point and the digits after it. *)
Definition decimalShape (s : jsstring)
  : option (bool * jsstring * jsstring) :=
  let '(neg, s1) :=
    match s with
    | c :: s' => if (c =? chr "-")%N then (true, s') else (false, s)
    | [] => (false, s)
    end in
  let '(ip, s2) := span isDigit s1 in
  match ip, s2 with
  | _ :: _, dot :: s3 =>
      if (dot =? chr ".")%N then
        let '(fp, s4) := span isDigit s3 in
        match fp, s4 with
        | _ :: _, [] => Some (neg, ip, fp)
        | _, _ => None
        end
      else None
  | _, _ => None
  end.

(** The global [parseFloat], on the strings the importer applies it to:
    the captures of [(-?\d+\.\d+)], each a whole decimal with a point,
    whose value is that decimal rounded to the nearest Number.  Other
    strings do not reach it ([ShapeFacts.exec_fields_decimal] below) and
    are left at [NaN] here. *)
Definition parseFloat (s : jsstring) : number :=
  match decimalShape s with
  | Some (neg, ip, fp) => ofDecimal neg (digitsValue (ip ++ fp)) (length fp)
  | None => NaN
  end.

(** [parseFloat(groups[g])]: an undefined capture reads as the string
    "undefined", which is not a number. *)
Definition parseFloatCapture (g : option jsstring) : number :=
  match g with
  | Some s => parseFloat s
  | None => NaN
  end.

End JSNumber.

(** ** JavaScript values *)

Module JSValue.
Import JSString JSNumber.

(** How a piece of code completes: with a value, or by throwing. *)
Inductive completion (A : Type) : Type :=
| Normal (a : A)
| Throw (error : jsstring).

Arguments Normal {A} _.
Arguments Throw {A} _.

(** What running a piece of code comes to: the side effects it had on the
    world outside it, in order, and how it completed. *)
Definition effect := jsstring.
Definition outcome (A : Type) : Type := list effect * completion A.

(** Code that only returns a value. *)
Definition returns {A : Type} (a : A) : outcome A := ([], Normal a).

(** One piece of code after another: the second runs on the value of the
    first, unless the first threw. *)
Definition andThen {A B : Type} (m : outcome A) (k : A -> outcome B)
  : outcome B :=
  match m with
  | (effects, Normal a) =>
      let '(effects', c) := k a in (effects ++ effects', c)
  | (effects, Throw error) => (effects, Throw error)
  end.

(** An object, as far as the importer can tell objects apart: what the
    walk along its prototype chain in search of [String.prototype] comes to
    (an ordinary object answers without effects; a proxy runs its
    [getPrototypeOf] trap, which may do anything or throw), and what
    [ToString] of it comes to (through the object's [Symbol.toPrimitive],
    [toString] and [valueOf], which may be its own). *)
Record object : Type := {
  onStringPrototypeChain : outcome bool;
  stringConversion : outcome jsstring
}.

(** What a caller can pass where the importer expects its [events]. *)
Inductive value : Type :=
| VUndefined
| VNull
| VBoolean (b : bool)
| VNumber (n : number)
| VBigInt (z : Z)
| VSymbol (description : jsstring)
| VString (s : jsstring)          (* a primitive string *)
| VObject (o : object).           (* an object, functions included *)

(** [new String(s)]: [String.prototype] is the first link of its chain, and
    the built-in [toString] gives back [s]. *)
Definition stringObject (s : jsstring) : object :=
  {| onStringPrototypeChain := returns true;
     stringConversion := returns s |}.

Definition VStringObject (s : jsstring) : value := VObject (stringObject s).

(** [ToBoolean] of a property that holds [undefined] or a string. *)
Definition truthyString (o : option jsstring) : bool :=
  match o with
  | Some (_ :: _) => true
  | Some [] | None => false
  end.

End JSValue.

(** ** The trace model *)

Module TraceModel.
Import JSString JSNumber.

(** Modelled from the spec: [model/clock_sync_manager.js] is missing; the
    clock domains are an enumeration with the host trace clock and the
    external device's clock. *)
Inductive ClockDomainId : Type :=
| LINUX_CLOCK_MONOTONIC
| BATTOR.

(** Modelled from the spec: [model/model.js] is missing; an import warning
    is a kind tag and a message. *)
Record ImportWarning : Type := {
  type : jsstring;
  message : jsstring
}.

(** Modelled from the spec: [model/power_series.js] is missing; a power
    series is the sequence of its samples in the order they were added,
    each a model timestamp and a power. *)
Record PowerSample : Type := {
  start : number;
  power : number
}.

Definition PowerSeries := list PowerSample.

(** [new tr.model.PowerSeries(device)] *)
Definition newPowerSeries : PowerSeries := [].

(** [series.addPowerSample(ts, val)] *)
Definition addPowerSample (series : PowerSeries) (ts val : number)
  : PowerSeries :=
  series ++ [{| start := ts; power := val |}].

(** Modelled from the spec: [model/clock_sync_manager.js] is missing; the
    manager is any state with these two operations.  Recording a marker
    changes the manager.  Asking for a transformer gives the map from the
    domain's time to model time; it may change the manager (the transform
    is computed once and kept) and may record import warnings (a domain
    without matching markers). *)
Class ClockSyncManagerOps (M : Type) : Type := {
  addClockSyncMarker : M -> ClockDomainId -> jsstring -> number -> M;
  getModelTimeTransformer :
    M -> ClockDomainId -> M * list ImportWarning * (number -> number)
}.

(** Modelled from the spec: [model/device.js] is missing; the device owns
    zero or one power series. *)
Record Device : Type := {
  powerSeries : option PowerSeries
}.

(** Modelled from the spec: [model/model.js] is missing; the model holds its
    device, its clock sync manager and the log of import warnings. *)
Record Model (M : Type) : Type := {
  device : Device;
  clockSyncManager : M;
  importWarnings : list ImportWarning
}.

Arguments device {M} _.
Arguments clockSyncManager {M} _.
Arguments importWarnings {M} _.

(** [model.importWarning(w)]: the warning joins the end of the log. *)
Definition importWarning {M} (model : Model M) (w : ImportWarning)
  : Model M :=
  {| device := device model;
     clockSyncManager := clockSyncManager model;
     importWarnings := importWarnings model ++ [w] |}.

Definition setClockSyncManager {M} (model : Model M) (m : M) : Model M :=
  {| device := device model;
     clockSyncManager := m;
     importWarnings := importWarnings model |}.

Definition setPowerSeries {M} (model : Model M) (series : PowerSeries)
  : Model M :=
  {| device := {| powerSeries := Some series |};
     clockSyncManager := clockSyncManager model;
     importWarnings := importWarnings model |}.

(** A manager that records the markers it is given, in order, and maps
    every domain to model time unchanged: used to run the importer on
    concrete traces. *)
Definition MarkerLog := list (ClockDomainId * jsstring * number).

#[export] Instance markerLogOps : ClockSyncManagerOps MarkerLog := {
  addClockSyncMarker log domain syncId ts := log ++ [(domain, syncId, ts)];
  getModelTimeTransformer log _ := (log, [], fun t => t)
}.

Definition emptyModel : Model MarkerLog :=
  {| device := {| powerSeries := None |};
     clockSyncManager := [];
     importWarnings := [] |}.

End TraceModel.

(** ** The BattOr importer *)

Module Battor.
Import JSString RegExp JSNumber JSValue TraceModel.

(** A sample recorded by a BattOr. *)
Record Sample : Type := {
  ts : number;
  voltage : number;
  current : number;
  syncId : option jsstring
}.

(** [get power() { return this.voltage * this.current; }] *)
Definition Sample_power (this : Sample) : number :=
  mul (voltage this) (current this).

(** [(-?\d+\.\d+)] without its parentheses *)
Definition decimalRE : regex :=
  Cat (Opt (Chr (chr "-")))
      (Cat (Plus (Class isDigit))
           (Cat (Chr (chr ".")) (Plus (Class isDigit)))).

(** [(?:\s+<(\S+)>)?] *)
Definition syncRE : regex :=
  Opt (Cat (Plus (Class isWhiteSpace))
           (Cat (Chr (chr "<"))
                (Cat (Group 4 (Plus (Class isNonWhiteSpace)))
                     (Chr (chr ">"))))).

Definition battorDataLineRE : regex :=
  Cat Bol
      (Cat (Group 1 decimalRE)
           (Cat (Plus (Class isWhiteSpace))
                (Cat (Group 2 decimalRE)
                     (Cat (Plus (Class isWhiteSpace))
                          (Cat (Group 3 decimalRE)
                               (Cat syncRE Eol)))))).

Definition battorHeaderLineRE : regex :=
  Cat Bol (literal (js "# BattOr")).

(** [BattorImporter.canImport] *)
Definition canImport (events : value) : outcome bool :=
  match events with
  | VString s =>
      (* [typeof(events) === 'string']: the pattern is tried on the string *)
      returns (test battorHeaderLineRE s)
  | VObject o =>
      (* [events instanceof String] walks the prototype chain; without
         [String.prototype] on it the answer is false, and with it the
         pattern is tried on [ToString(events)] *)
      andThen (onStringPrototypeChain o)
              (fun isInstance =>
                 if negb isInstance then returns false
                 else andThen (stringConversion o)
                              (fun s => returns (test battorHeaderLineRE s)))
  | VUndefined | VNull | VBoolean _ | VNumber _ | VBigInt _ | VSymbol _ =>
      (* neither a string nor an object, so no instance of [String] *)
      returns false
  end.

(** The importer object.  Its [model_] is a reference to the model shared
    with the caller, so the methods below take the model and give it back. *)
Record BattorImporter : Type := {
  importPriority : nat;
  samples_ : list Sample
}.

Definition unrecognizedLine (line : jsstring) : ImportWarning :=
  {| type := js "parse_error";
     message := js "Unrecognized line in BattOr trace: " ++ line |}.

Definition negativeLine (line : jsstring) : ImportWarning :=
  {| type := js "parse_error";
     message :=
       js "The following line in the BattOr trace has a negative "
       ++ js "voltage or current, neither of which are allowed: " ++ line
       ++ js ". A common cause of this is that the device is charging "
       ++ js "while the trace is being recorded." |}.

Definition powerCounterExists : ImportWarning :=
  {| type := js "import_error";
     message :=
       js "Power counter exists, can not import BattOr power trace." |}.

Section Importer.
Context {M : Type} `{ClockSyncManagerOps M}.

(** The loop of [linesToSamples_]: [samples] is the array built so far. *)
Fixpoint linesToSamples_loop (lines : list jsstring) (model : Model M)
         (samples : list Sample) : Model M * list Sample :=
  match lines with
  | [] => (model, samples)
  | line :: rest =>
      let line := trim line in
      if Nat.eqb (length line) 0 then
        linesToSamples_loop rest model samples
      else if startsWith line (js "#") then
        linesToSamples_loop rest model samples
      else
        match exec battorDataLineRE line with
        | None =>
            linesToSamples_loop
              rest (importWarning model (unrecognizedLine line)) samples
        | Some groups =>
            let ts := parseFloatCapture (groups 1) in
            let voltage := div (parseFloatCapture (groups 2)) (ofZ 1000) in
            let current := div (parseFloatCapture (groups 3)) (ofZ 1000) in
            let syncId := groups 4 in
            if lt voltage (ofZ 0) || lt current (ofZ 0) then
              linesToSamples_loop
                rest (importWarning model (negativeLine line)) samples
            else
              linesToSamples_loop
                rest model
                (samples ++ [{| ts := ts; voltage := voltage;
                                current := current; syncId := syncId |}])
        end
  end.

Definition linesToSamples_ (model : Model M) (lines : list jsstring)
  : Model M * list Sample :=
  linesToSamples_loop lines model [].

(** The constructor: the lines of [events] are parsed at once, against
    the model given. *)
Definition newBattorImporter (model : Model M) (events : jsstring)
  : Model M * BattorImporter :=
  let '(model', samples) :=
    linesToSamples_ model (split newline events) in
  (model', {| importPriority := 3; samples_ := samples |}).

(** The loop of [importClockSyncMarkers], on the manager of the model. *)
Fixpoint importClockSyncMarkers_loop (samples : list Sample) (manager : M)
  : M :=
  match samples with
  | [] => manager
  | sample :: rest =>
      if truthyString (syncId sample) then
        (* a truthy sync id is a string: the call is the [Some] branch *)
        match syncId sample with
        | Some id =>
            importClockSyncMarkers_loop
              rest (addClockSyncMarker manager BATTOR id (ts sample))
        | None => importClockSyncMarkers_loop rest manager
        end
      else importClockSyncMarkers_loop rest manager
  end.

Definition importClockSyncMarkers (this : BattorImporter)
           (model : Model M) : Model M :=
  setClockSyncManager
    model
    (importClockSyncMarkers_loop (samples_ this) (clockSyncManager model)).

(** The loop of [importEvents]: [series] is the object that both the
    local [powerSeries] and [model.device.powerSeries] refer to. *)
Fixpoint importEvents_loop (modelTimeTransformer : number -> number)
         (samples : list Sample) (series : PowerSeries) : PowerSeries :=
  match samples with
  | [] => series
  | sample :: rest =>
      importEvents_loop
        modelTimeTransformer rest
        (addPowerSample series (modelTimeTransformer (ts sample))
                        (Sample_power sample))
  end.

Definition importEvents (this : BattorImporter) (model : Model M)
  : Model M :=
  match powerSeries (device model) with
  | Some _ => importWarning model powerCounterExists
  | None =>
      let '(manager, warnings, modelTimeTransformer) :=
        getModelTimeTransformer (clockSyncManager model) BATTOR in
      let model :=
        fold_left importWarning warnings
                  (setClockSyncManager model manager) in
      setPowerSeries
        model
        (importEvents_loop modelTimeTransformer (samples_ this)
                           newPowerSeries)
  end.

End Importer.

End Battor.

(** ** The long-tasks metric *)

Module LongTasks.
Import JSString JSNumber.

Definition LONG_TASK_MS : number := ofZ 50.

(** Anything longer than this should be so rare that its length beyond
    this is uninteresting. *)
Definition LONGEST_TASK_MS : number := ofZ 1000.

(** Modelled from the spec: [model/slice.js] is missing; a slice is a timed
    interval with a duration and a stable identifier. *)
Record Slice : Type := {
  start : number;
  end_ : number;
  duration : number;
  stableId : jsstring
}.

(** Modelled from the spec: [model/thread.js] and the slice group are
    missing; what the metric reads of a thread is
    [thread.sliceGroup.topLevelSlices], the roots of its slices. *)
Record Thread : Type := {
  topLevelSlices : list Slice
}.

(** Modelled from the spec: [base/range.js] is missing; an explicit range,
    which a [start, end) interval intersects when they overlap by more
    than a boundary point. *)
Record Range : Type := {
  min : number;
  max : number
}.

Definition fromExplicitRange (min max : number) : Range :=
  {| min := min; max := max |}.

Definition intersectsExplicitRangeExclusive (this : Range)
           (min' max' : number) : bool :=
  lt (min this) max' && lt min' (max this).

(** Modelled from the spec: [model/helpers/chrome_model_helper.js] is
    missing; the model gives its renderer helpers, each with its main
    thread when it has one. *)
Record RendererHelper : Type := {
  mainThread : option Thread
}.

Record Model : Type := {
  rendererHelpers : list RendererHelper
}.

(** Modelled from the spec: [value/numeric.js] is missing; a builder is a
    unit, a range and a number of bins, and a numeric built from it is
    any state that values with their provenance can be added to. *)
Record NumericBuilder : Type := {
  unitName : jsstring;
  range : Range;
  numBins : nat
}.

Definition createLinear (unitName : jsstring) (range : Range)
           (numBins : nat) : NumericBuilder :=
  {| unitName := unitName; range := range; numBins := numBins |}.

Class NumericOps (Numeric : Type) : Type := {
  build : NumericBuilder -> Numeric;
  add : Numeric -> number -> jsstring -> Numeric
}.

Record NumericValue (Numeric : Type) : Type := {
  name : jsstring;
  numeric : Numeric
}.

Arguments name {Numeric} _.
Arguments numeric {Numeric} _.

(** Calls [cb] for each of the top-level tasks on the given thread in the
    given range whose duration is longer than LONG_TASK_MS.  The state
    [cb] works on is passed through the calls. *)
Definition iterateLongTopLevelTasksOnThreadInRange {A : Type}
           (thread : Thread) (opt_range : option Range)
           (cb : A -> Slice -> A) (acc : A) : A :=
  fold_left
    (fun acc slice =>
       if match opt_range with
          | Some range =>
              negb (intersectsExplicitRangeExclusive
                      range (start slice) (end_ slice))
          | None => false
          end
       then acc
       else if lt (duration slice) LONG_TASK_MS then acc
       else cb acc slice)
    (topLevelSlices thread) acc.

(** Calls [cb] for each of the main renderer threads in the model. *)
Definition iterateRendererMainThreads {A : Type} (model : Model)
           (cb : A -> Thread -> A) (acc : A) : A :=
  fold_left
    (fun acc rendererHelper =>
       match mainThread rendererHelper with
       | None => acc
       | Some thread => cb acc thread
       end)
    (rendererHelpers model) acc.

Definition LONG_TASK_NUMERIC_BUILDER : NumericBuilder :=
  createLinear (js "timeDurationInMs_smallerIsBetter")
               (fromExplicitRange LONG_TASK_MS LONGEST_TASK_MS) 50.

Section Metric.
Context {Numeric : Type} `{NumericOps Numeric}.

(** This metric directly measures long tasks on renderer main threads.
    [values] is the list of the values added so far. *)
Definition longTasksMetric (values : list (NumericValue Numeric))
           (model : Model) : list (NumericValue Numeric) :=
  let longTaskNumeric := build LONG_TASK_NUMERIC_BUILDER in
  let longTaskNumeric :=
    iterateRendererMainThreads
      model
      (fun longTaskNumeric thread =>
         iterateLongTopLevelTasksOnThreadInRange
           thread None
           (fun longTaskNumeric task =>
              add longTaskNumeric (duration task) (stableId task))
           longTaskNumeric)
      longTaskNumeric in
  values ++ [{| name := js "long tasks"; numeric := longTaskNumeric |}].

End Metric.

(** A numeric that records what is added to it, in order: used to run the
    metric on concrete threads. *)
Definition AddLog : Type := NumericBuilder * list (number * jsstring).

#[export] Instance addLogOps : NumericOps AddLog := {
  build builder := (builder, []);
  add log value id := (fst log, snd log ++ [(value, id)])
}.

(** A model with one renderer, whose main thread has the given top-level
    slices. *)
Definition task (id : jsstring) (start duration : Z) : Slice :=
  {| start := ofZ start; end_ := ofZ (start + duration);
     duration := ofZ duration; stableId := id |}.

Definition oneRenderer (slices : list Slice) : Model :=
  {| rendererHelpers :=
       [{| mainThread := Some {| topLevelSlices := slices |} |}] |}.

(** The top-level slices of the renderer main threads, in the order the
    metric visits them. *)
Definition mainThreadTasks (model : Model) : list Slice :=
  flat_map (fun rendererHelper =>
              match mainThread rendererHelper with
              | Some thread => topLevelSlices thread
              | None => []
              end) (rendererHelpers model).

(** The tasks the code takes for long: those not shorter than
    LONG_TASK_MS. *)
Definition notShort (slice : Slice) : bool :=
  negb (lt (duration slice) LONG_TASK_MS).

End LongTasks.

(** ** Shapes and views used to state the properties *)

Module BattorSpec.
Import JSString RegExp JSNumber JSValue TraceModel Battor.

(** A non-empty run of characters of class [p]. *)
Definition runOf (p : char -> bool) (w : jsstring) : Prop :=
  w <> [] /\ forallb p w = true.

(** What [-?\d+\.\d+] matches. *)
Definition isDecimal (f : jsstring) : Prop :=
  exists sign w1 w2,
    f = sign ++ w1 ++ chr "." :: w2
    /\ (sign = [] \/ sign = [chr "-"])
    /\ runOf isDigit w1 /\ runOf isDigit w2.

(** What [(?:\s+<(\S+)>)?$] matches, and what it leaves in group 4. *)
Definition isSyncTail (tail : jsstring) (c c' : captures) : Prop :=
  (tail = [] /\ c' = c)
  \/ exists w id,
      tail = w ++ chr "<" :: id ++ [chr ">"]
      /\ runOf isWhiteSpace w /\ runOf isNonWhiteSpace id
      /\ c' = set_capture 4 id c.

(** The sample the importer builds from the captures of a line. *)
Definition sampleOf (groups : captures) : Sample :=
  {| ts := parseFloatCapture (groups 1);
     voltage := div (parseFloatCapture (groups 2)) (ofZ 1000);
     current := div (parseFloatCapture (groups 3)) (ofZ 1000);
     syncId := groups 4 |}.

(** The markers a list of samples carries: the sync id and the local
    timestamp of every sample that has a sync id, in order. *)
Definition syncMarkers (samples : list Sample) : list (jsstring * number) :=
  flat_map (fun sample =>
              match syncId sample with
              | Some id => [(id, ts sample)]
              | None => []
              end) samples.

(** The power sample a BattOr sample becomes under a time transform. *)
Definition powerSampleOf (f : number -> number) (sample : Sample)
  : PowerSample :=
  {| start := f (ts sample); power := Sample_power sample |}.


(** The sync id of a parsed sample is undefined or a non-empty string. *)
Definition syncIdParsed (sample : Sample) : Prop :=
  truthyString (syncId sample) =
  match syncId sample with Some _ => true | None => false end.

(** [rest] does not go on with a character of class [p]. *)
Definition stops (p : char -> bool) (rest : jsstring) : Prop :=
  match rest with
  | [] => True
  | c :: _ => p c = false
  end.

End BattorSpec.

(** ** Concrete traces and models *)

Module Examples.
Import JSString JSNumber JSValue TraceModel Battor.

(** The trace of the end-to-end scenario. *)
Definition endToEndTrace : jsstring :=
  js "# BattOr" ++ [newline]
  ++ js "0.0 1000.0 500.0" ++ [newline]
  ++ js "1.0 1000.0 500.0 <sync1>" ++ [newline].

(** 0.5, that is 2^52 * 2^-53, and 1, that is 2^52 * 2^-52. *)
Definition half : number := S754_finite false 4503599627370496 (-53).

Definition one : number := S754_finite false 4503599627370496 (-52).

(** The second data line of the end-to-end trace, and its captures. *)
Definition syncLine : jsstring := js "1.0 1000.0 500.0 <sync1>".

Definition capturesOf (line : jsstring) : RegExp.captures :=
  match RegExp.exec battorDataLineRE (trim line) with
  | Some groups => groups
  | None => RegExp.no_captures
  end.

(** The decimal -1e-323: a minus sign, 322 zeros after the point, and 1. *)
Definition tinyNegativeField : jsstring :=
  js "-0." ++ List.repeat (chr "0") 322 ++ js "1".

(** A data line whose voltage field is -1e-323. *)
Definition tinyNegativeLine : jsstring :=
  js "0.0 " ++ tinyNegativeField ++ js " 500.0".


(** [Object.create(String.prototype)]: an instance of [String] without
    string data, on which the inherited [toString] throws a TypeError. *)
Definition bareStringInstance : object :=
  {| onStringPrototypeChain := returns true;
     stringConversion := ([], Throw (js "TypeError")) |}.

(** A String object with a [toString] of its own that writes to a log
    before it answers. *)
Definition loggingStringObject : object :=
  {| onStringPrototypeChain := returns true;
     stringConversion := ([js "log"], Normal (js "# BattOr")) |}.


(** The importer of the end-to-end trace. *)
Definition endToEndImporter : BattorImporter :=
  snd (newBattorImporter emptyModel endToEndTrace).

(** A model whose device already has a power series. *)
Definition populatedModel : Model MarkerLog :=
  setPowerSeries emptyModel [{| start := one; power := half |}].

End Examples.


(** ** Notions used by the further properties *)

Module PropertySpec.
Import JSString RegExp JSNumber JSValue TraceModel Battor BattorSpec.

(** [x] is not below zero: zero of either sign, a positive number, or NaN. *)
Definition notNegative (x : number) : Prop := lt x (ofZ 0) = false.

Definition isNaN (x : number) : bool :=
  match x with S754_nan => true | _ => false end.

Definition isInfinite (x : number) : bool :=
  match x with S754_infinity _ => true | _ => false end.

Definition isZero (x : number) : bool :=
  match x with S754_zero _ => true | _ => false end.

(** What follows the third field of a data line, with the sync id it
    gives: nothing, or white space and a token in angle brackets. *)
Definition syncTailOf (tail : jsstring) (sync : option jsstring) : Prop :=
  (tail = [] /\ sync = None)
  \/ (exists w id,
         tail = w ++ chr "<" :: id ++ [chr ">"]
         /\ runOf isWhiteSpace w /\ runOf isNonWhiteSpace id
         /\ sync = Some id).

(** The lines the loop passes over without a word: blank ones and
    comments. *)
Definition skippedLine (line : jsstring) : bool :=
  Nat.eqb (length (trim line)) 0 || startsWith (trim line) (js "#").

(** The importer the constructor builds around a list of samples. *)
Definition importerOf (samples : list Sample) : BattorImporter :=
  {| importPriority := 3; samples_ := samples |}.

(** A sync id as the pattern captures it: undefined, or a non-empty token
    without white space. *)
Definition syncIdShape (sample : Sample) : Prop :=
  match syncId sample with
  | None => True
  | Some id => runOf isNonWhiteSpace id
  end.

(** A data line whose voltage overflows to Infinity and whose current is
    zero. *)
Definition overflowLine : jsstring :=
  js "0.0 1" ++ List.repeat (chr "0") 400 ++ js ".0 0.0".

(** A comment line with white space in front of it. *)
Definition indentedComment : jsstring := js "   # recorded on the bench".

End PropertySpec.

Module LongTasksSpec.
Import JSString JSNumber LongTasks.

(** The slices a range lets through: all of them when there is no range. *)
Definition inRange (opt_range : option Range) (slice : Slice) : bool :=
  match opt_range with
  | Some range =>
      intersectsExplicitRangeExclusive range (start slice) (end_ slice)
  | None => true
  end.

(** What the metric adds for a task. *)
Definition entryOf (slice : Slice) : number * jsstring :=
  (duration slice, stableId slice).

End LongTasksSpec.

(** ** Facts about the matcher and the two patterns *)

Module RegExpFacts.
Import JSString RegExp JSNumber Battor BattorSpec.

Lemma run_cat r1 r2 i s c k :
  run (Cat r1 r2) i s c k = run r1 i s c (fun i' s' c' => run r2 i' s' c' k).
Proof. reflexivity. Qed.

Lemma run_group g r i s c k :
  run (Group g r) i s c k =
  run r i s c
      (fun i' s' c' => k i' s' (set_capture g (firstn (i' - i) s) c')).
Proof. reflexivity. Qed.

Lemma run_chr_inv a i s c k res :
  run (Chr a) i s c k = Some res ->
  exists s', s = a :: s' /\ k (S i) s' c = Some res.
Proof.
  destruct s as [|x s']; simpl; [discriminate|].
  destruct (N.eqb_spec x a) as [->|]; [|discriminate].
  intros Hk. now exists s'.
Qed.

Lemma run_eol_inv i s c k res :
  run Eol i s c k = Some res -> s = [] /\ k i [] c = Some res.
Proof. destruct s; simpl; [now split|discriminate]. Qed.

Lemma run_opt_inv r i s c k res :
  run (Opt r) i s c k = Some res ->
  run r i s c k = Some res \/ k i s c = Some res.
Proof.
  simpl. destruct (run r i s c k); [now left|now right].
Qed.

(** A greedy run of characters of one class: some non-empty prefix made
    of the class was consumed before the continuation succeeded. *)
Lemma greedy_class_inv p k n :
  forall i s c res,
    greedy (run (Class p)) k n i s c = Some res ->
    exists w s',
      s = w ++ s' /\ w <> [] /\ forallb p w = true
      /\ k (i + length w) s' c = Some res.
Proof.
  induction n as [|n IH]; intros i s c res Hr;
    (destruct s as [|x s']; [discriminate|]).
  - simpl in Hr. destruct (p x) eqn:Hp; [|discriminate].
    exists [x], s'. simpl. rewrite Hp, Nat.add_1_r.
    repeat split; [discriminate|exact Hr].
  - change (greedy (run (Class p)) k (S n) i (x :: s') c)
      with (if p x
            then match greedy (run (Class p)) k n (S i) s' c with
                 | Some r => Some r
                 | None => k (S i) s' c
                 end
            else None) in Hr.
    destruct (p x) eqn:Hp; [|discriminate].
    destruct (greedy (run (Class p)) k n (S i) s' c) eqn:Hrep.
    + inversion Hr; subst.
      apply IH in Hrep as (w & s'' & -> & _ & Hall & Hk).
      exists (x :: w), s''. simpl. rewrite Hp, Hall.
      rewrite Nat.add_succ_r. repeat split; [discriminate|exact Hk].
    + exists [x], s'. simpl. rewrite Hp, Nat.add_1_r.
      repeat split; [discriminate|exact Hr].
Qed.

Lemma run_plus_class_inv p i s c k res :
  run (Plus (Class p)) i s c k = Some res ->
  exists w s',
    s = w ++ s' /\ w <> [] /\ forallb p w = true
    /\ k (i + length w) s' c = Some res.
Proof. apply greedy_class_inv. Qed.

(** The text between two positions of a match is what a group captures. *)
Lemma firstn_consumed (f s' : jsstring) i :
  firstn (i + length f - i) (f ++ s') = f.
Proof.
  replace (i + length f - i) with (length f + 0) by lia.
  rewrite firstn_app_2. simpl. apply app_nil_r.
Qed.

Lemma run_decimal_inv i s c k res :
  run decimalRE i s c k = Some res ->
  exists f s',
    s = f ++ s' /\ isDecimal f /\ k (i + length f) s' c = Some res.
Proof.
  unfold decimalRE. rewrite run_cat. intros H.
  assert (Hsign : exists sign s1,
             s = sign ++ s1 /\ (sign = [] \/ sign = [chr "-"])
             /\ run (Cat (Plus (Class isDigit))
                         (Cat (Chr (chr ".")) (Plus (Class isDigit))))
                    (i + length sign) s1 c k = Some res).
  { apply run_opt_inv in H as [H|H].
    - apply run_chr_inv in H as (s1 & -> & H).
      exists [chr "-"], s1. simpl length. rewrite Nat.add_1_r. auto.
    - exists [], s. simpl length. rewrite Nat.add_0_r. auto. }
  destruct Hsign as (sign & s1 & -> & Hsign & H1).
  rewrite run_cat in H1.
  apply run_plus_class_inv in H1 as (w1 & s2 & -> & Hw1 & Hd1 & H2).
  rewrite run_cat in H2.
  apply run_chr_inv in H2 as (s3 & -> & H3).
  apply run_plus_class_inv in H3 as (w2 & s4 & -> & Hw2 & Hd2 & H4).
  exists (sign ++ w1 ++ chr "." :: w2), s4. split; [|split].
  - now rewrite <- !app_assoc, <- app_comm_cons.
  - exists sign, w1, w2. unfold runOf. auto.
  - rewrite !length_app. simpl length.
    replace (i + (length sign + (length w1 + S (length w2))))
      with (S (i + length sign + length w1) + length w2) by lia.
    exact H4.
Qed.

Lemma run_field_inv g i s c k res :
  run (Group g decimalRE) i s c k = Some res ->
  exists f s',
    s = f ++ s' /\ isDecimal f
    /\ k (i + length f) s' (set_capture g f c) = Some res.
Proof.
  rewrite run_group. intros H.
  apply run_decimal_inv in H as (f & s' & -> & Hf & H).
  rewrite firstn_consumed in H. now exists f, s'.
Qed.

Lemma run_sync_inv i s c k res :
  run (Cat syncRE Eol) i s c k = Some res ->
  exists c', isSyncTail s c c' /\ k (i + length s) [] c' = Some res.
Proof.
  rewrite run_cat. unfold syncRE. intros H.
  apply run_opt_inv in H as [H|H].
  - rewrite run_cat in H.
    apply run_plus_class_inv in H as (w & s1 & -> & Hw & Hws & H).
    rewrite run_cat in H.
    apply run_chr_inv in H as (s2 & -> & H).
    rewrite run_cat, run_group in H.
    apply run_plus_class_inv in H as (id & s3 & -> & Hid & Hnws & H).
    rewrite firstn_consumed in H.
    apply run_chr_inv in H as (s4 & -> & H).
    apply run_eol_inv in H as (-> & H).
    exists (set_capture 4 id c). split.
    + right. exists w, id. unfold runOf. auto.
    + rewrite !length_app. simpl length. rewrite length_app. simpl length.
      replace (i + (length w + S (length id + 1)))
        with (S (S (i + length w) + length id)) by lia.
      exact H.
  - apply run_eol_inv in H as (-> & H).
    exists c. split; [now left|]. simpl length. now rewrite Nat.add_0_r.
Qed.

(** [^] fails at every index but 0, so only the first attempt of [exec]
    can succeed. *)
Lemma scan_bol r s : forall i, scan (Cat Bol r) (S i) s = None.
Proof. induction s as [|x s IH]; intros i; simpl; auto. Qed.

Lemma exec_bol r s :
  exec (Cat Bol r) s =
  run r 0 s no_captures
      (fun i' _ c' => Some (set_capture 0 (firstn (i' - 0) s) c')).
Proof.
  unfold exec. destruct s as [|x s]; simpl.
  - now destruct (run r 0 [] no_captures _).
  - destruct (run r 0 (x :: s) no_captures _); [reflexivity|].
    apply scan_bol.
Qed.

(** The shape of every line the data-line pattern matches, with the
    captures it returns. *)
Theorem exec_dataLine_inv s groups :
  exec battorDataLineRE s = Some groups ->
  exists f1 w1 f2 w2 f3 tail,
    s = f1 ++ w1 ++ f2 ++ w2 ++ f3 ++ tail
    /\ isDecimal f1 /\ runOf isWhiteSpace w1
    /\ isDecimal f2 /\ runOf isWhiteSpace w2
    /\ isDecimal f3
    /\ groups 1 = Some f1 /\ groups 2 = Some f2 /\ groups 3 = Some f3
    /\ ((tail = [] /\ groups 4 = None)
        \/ exists w id,
            tail = w ++ chr "<" :: id ++ [chr ">"]
            /\ runOf isWhiteSpace w /\ runOf isNonWhiteSpace id
            /\ groups 4 = Some id).
Proof.
  unfold battorDataLineRE. rewrite exec_bol, run_cat. intros H.
  apply run_field_inv in H as (f1 & s1 & -> & Hf1 & H).
  rewrite run_cat in H.
  apply run_plus_class_inv in H as (w1 & s2 & -> & Hw1 & Hws1 & H).
  rewrite run_cat in H.
  apply run_field_inv in H as (f2 & s3 & -> & Hf2 & H).
  rewrite run_cat in H.
  apply run_plus_class_inv in H as (w2 & s4 & -> & Hw2 & Hws2 & H).
  rewrite run_cat in H.
  apply run_field_inv in H as (f3 & tail & -> & Hf3 & H).
  apply run_sync_inv in H as (c' & Htail & H).
  inversion H; subst groups; clear H.
  exists f1, w1, f2, w2, f3, tail. unfold runOf.
  repeat (split; [solve [auto]|]).
  destruct Htail as [(-> & ->)|(w & id & -> & Hw & Hid & ->)].
  - repeat (split; [reflexivity|]). now left.
  - repeat (split; [reflexivity|]). right. now exists w, id.
Qed.

End RegExpFacts.

(** ** Facts about Numbers *)

Module JSNumberFacts.
Import JSString JSNumber.

Lemma half_one_values :
  Examples.half = div (ofZ 1) (ofZ 2) /\ Examples.half = parseFloat (js "0.5")
  /\ Examples.one = ofZ 1 /\ Examples.one = parseFloat (js "1.0").
Proof. repeat split; vm_compute; reflexivity. Qed.

(** Rounding keeps the sign it is given. *)
Lemma binary_round_aux_sign s m e l :
  match binary_round_aux prec emax s m e l with
  | S754_zero s' | S754_infinity s' | S754_finite s' _ _ => s' = s
  | S754_nan => True
  end.
Proof.
  unfold binary_round_aux.
  destruct (shr_fexp prec emax m e l) as [mrs' e'].
  destruct (shr_fexp prec emax _ e' loc_Exact) as [mrs'' e''].
  destruct (shr_m mrs''); auto.
  destruct (Z.leb e'' (emax - prec)); auto.
Qed.

Lemma not_lt_zero_positive s m e :
  match binary_round_aux prec emax false m e s with
  | x => lt x (ofZ 0) = false
  end.
Proof.
  pose proof (binary_round_aux_sign false m e s) as Hs.
  destruct (binary_round_aux prec emax false m e s); subst; reflexivity.
Qed.

(** A value that is not below zero is not below zero after the division
    by 1000. *)
Lemma div_1000_not_negative x :
  lt x (ofZ 0) = false -> lt (div x (ofZ 1000)) (ofZ 0) = false.
Proof.
  destruct x as [s|s| |s m e]; try destruct s; try discriminate;
    try reflexivity.
  intros _. unfold div, SFdiv.
  change (ofZ 1000) with (S754_finite false 8796093022208000 (-43)).
  cbv iota beta.
  destruct (SFdiv_core_binary prec emax (Z.pos m) e
                              (Z.pos 8796093022208000) (-43))
    as [[mz ez] lz].
  apply not_lt_zero_positive.
Qed.

End JSNumberFacts.

(** ** Facts about the importer *)

Module BattorFacts.
Import JSString RegExp JSNumber JSValue TraceModel Battor BattorSpec.
Import RegExpFacts JSNumberFacts.

(** A decimal starts with a minus sign or a digit. *)
Lemma decimal_head f rest :
  isDecimal f ->
  exists x t, f ++ rest = x :: t /\ (x = chr "-" \/ isDigit x = true).
Proof.
  intros (sign & w1 & w2 & -> & Hsign & (Hw1 & Hd1) & _).
  destruct Hsign as [->| ->].
  - destruct w1 as [|x w1]; [contradiction|].
    simpl in Hd1. apply andb_prop in Hd1 as [Hx _].
    exists x. eexists. split; [reflexivity|now right].
  - exists (chr "-"). eexists. split; [reflexivity|now left].
Qed.

(** A line the data-line pattern matches is neither blank nor a comment. *)
Lemma dataLine_not_skipped s groups :
  exec battorDataLineRE s = Some groups ->
  Nat.eqb (length s) 0 = false /\ startsWith s (js "#") = false.
Proof.
  intros H.
  apply exec_dataLine_inv in H
    as (f1 & w1 & f2 & w2 & f3 & tail & -> & Hf1 & _).
  destruct (decimal_head (w1 ++ f2 ++ w2 ++ f3 ++ tail) Hf1)
    as (x & t & -> & Hx).
  split; [reflexivity|].
  simpl. destruct Hx as [->|Hx]; [reflexivity|].
  destruct (N.eqb_spec x 35) as [->|]; [discriminate|reflexivity].
Qed.

(** The three numeric captures are defined when the pattern matches. *)
Lemma dataLine_fields s groups :
  exec battorDataLineRE s = Some groups ->
  exists f1 f2 f3,
    groups 1 = Some f1 /\ groups 2 = Some f2 /\ groups 3 = Some f3
    /\ isDecimal f1 /\ isDecimal f2 /\ isDecimal f3.
Proof.
  intros H.
  apply exec_dataLine_inv in H
    as (f1 & w1 & f2 & w2 & f3 & tail & _ & Hf1 & _ & Hf2 & _ & Hf3
        & H1 & H2 & H3 & _).
  exists f1, f2, f3. auto 7.
Qed.

(** A captured sync id is never the empty string, so it is truthy. *)
Lemma dataLine_syncId s groups :
  exec battorDataLineRE s = Some groups ->
  truthyString (groups 4) = match groups 4 with Some _ => true | None => false end.
Proof.
  intros H.
  apply exec_dataLine_inv in H
    as (f1 & w1 & f2 & w2 & f3 & tail & _ & _ & _ & _ & _ & _
        & _ & _ & _ & [(_ & ->)|(w & id & _ & _ & (Hid & _) & ->)]).
  - reflexivity.
  - destruct id; [contradiction|reflexivity].
Qed.

Section Importer.
Context {M : Type} `{ClockSyncManagerOps M}.

Lemma loop_cons line rest (model : Model M) samples :
  linesToSamples_loop (line :: rest) model samples =
  if Nat.eqb (length (trim line)) 0 then
    linesToSamples_loop rest model samples
  else if startsWith (trim line) (js "#") then
    linesToSamples_loop rest model samples
  else
    match exec battorDataLineRE (trim line) with
    | None =>
        linesToSamples_loop
          rest (importWarning model (unrecognizedLine (trim line)))
          samples
    | Some groups =>
        if lt (voltage (sampleOf groups)) (ofZ 0)
           || lt (current (sampleOf groups)) (ofZ 0)
        then linesToSamples_loop
               rest (importWarning model (negativeLine (trim line)))
               samples
        else linesToSamples_loop rest model (samples ++ [sampleOf groups])
    end.
Proof. reflexivity. Qed.

(** The samples already collected are kept, in front. *)
Lemma loop_acc lines :
  forall (model : Model M) s0 samples,
    linesToSamples_loop lines model (s0 ++ samples) =
    let '(model', samples') := linesToSamples_loop lines model samples in
    (model', s0 ++ samples').
Proof.
  induction lines as [|line rest IH]; intros model s0 samples.
  - reflexivity.
  - rewrite !loop_cons.
    destruct (Nat.eqb (length (trim line)) 0); [apply IH|].
    destruct (startsWith (trim line) (js "#")); [apply IH|].
    destruct (exec battorDataLineRE (trim line)) as [groups|]; [|apply IH].
    destruct (lt _ _ || lt _ _); [apply IH|].
    rewrite <- app_assoc. apply IH.
Qed.

(** Lines are handled one after the other: the second half of the input
    starts from what the first half left. *)
Lemma loop_app l1 :
  forall l2 (model : Model M) samples,
    linesToSamples_loop (l1 ++ l2) model samples =
    let '(model1, samples1) := linesToSamples_loop l1 model samples in
    linesToSamples_loop l2 model1 samples1.
Proof.
  induction l1 as [|line rest IH]; intros l2 model samples.
  - reflexivity.
  - rewrite <- app_comm_cons, !loop_cons.
    destruct (Nat.eqb (length (trim line)) 0); [apply IH|].
    destruct (startsWith (trim line) (js "#")); [apply IH|].
    destruct (exec battorDataLineRE (trim line)) as [groups|]; [|apply IH].
    destruct (lt _ _ || lt _ _); apply IH.
Qed.


(** What one line in the middle of the input contributes, given what
    the loop does at that line. *)
Lemma line_in_context pre line post (model : Model M) f s :
  (forall m samples,
      linesToSamples_loop (line :: post) m samples =
      linesToSamples_loop post (f m) (samples ++ s)) ->
  linesToSamples_ model (pre ++ line :: post) =
  let '(model1, samples1) := linesToSamples_ model pre in
  let '(model2, samples2) := linesToSamples_ (f model1) post in
  (model2, samples1 ++ s ++ samples2).
Proof.
  intros Hline. unfold linesToSamples_. rewrite loop_app.
  destruct (linesToSamples_loop pre model []) as [model1 samples1].
  rewrite Hline.
  rewrite <- (app_nil_r (samples1 ++ s)), loop_acc.
  destruct (linesToSamples_loop post (f model1) []) as [model2 samples2].
  now rewrite <- app_assoc.
Qed.

End Importer.

End BattorFacts.

Module ShapeFacts.
Import JSString RegExp JSNumber JSValue TraceModel Battor BattorSpec.
Import RegExpFacts BattorFacts.

Ltac decide_comparisons :=
  repeat match goal with
         | |- context [(?a =? ?b)%N] =>
             replace (a =? b)%N with false
             by (symmetry; apply N.eqb_neq; lia)
         | |- context [(?a <=? ?b)%N] =>
             first [ replace (a <=? b)%N with true
                     by (symmetry; apply N.leb_le; lia)
                   | replace (a <=? b)%N with false
                     by (symmetry; apply N.leb_gt; lia) ]
         end.

Lemma isDigit_range c : isDigit c = true -> (48 <= c <= 57)%N.
Proof.
  unfold isDigit. intros Hc. apply andb_prop in Hc as [H1 H2].
  apply N.leb_le in H1, H2. lia.
Qed.

Lemma isDigit_not_whitespace c : isDigit c = true -> isWhiteSpace c = false.
Proof.
  intros Hc. apply isDigit_range in Hc. unfold isWhiteSpace.
  decide_comparisons. reflexivity.
Qed.

Lemma isDigit_not_minus c : isDigit c = true -> (c =? chr "-")%N = false.
Proof.
  intros Hc. apply isDigit_range in Hc. apply N.eqb_neq.
  change (chr "-") with 45%N. lia.
Qed.

Lemma span_run p w rest :
  forallb p w = true ->
  match rest with [] => True | c :: _ => p c = false end ->
  span p (w ++ rest) = (w, rest).
Proof.
  intros Hw Hrest. induction w as [|x w IH]; simpl.
  - destruct rest as [|c rest]; [reflexivity|]. simpl. now rewrite Hrest.
  - simpl in Hw. apply andb_prop in Hw as [Hx Hw].
    now rewrite Hx, (IH Hw).
Qed.

(** [parseFloat] reads every string the decimal pattern matches as the
    decimal it spells. *)
Lemma parseFloat_decimal f :
  isDecimal f ->
  exists neg ip fp,
    f = (if neg : bool then [chr "-"] else []) ++ ip ++ chr "." :: fp
    /\ runOf isDigit ip /\ runOf isDigit fp
    /\ parseFloat f = ofDecimal neg (digitsValue (ip ++ fp)) (length fp).
Proof.
  intros (sign & w1 & w2 & -> & Hsign & Hw1 & Hw2).
  assert (Hshape : forall neg,
             sign = (if neg : bool then [chr "-"] else []) ->
             decimalShape (sign ++ w1 ++ chr "." :: w2)
             = Some (neg, w1, w2)).
  { intros neg ->. destruct Hw1 as [Hne1 Hd1], Hw2 as [Hne2 Hd2].
    assert (Hrest : decimalShape
                      ((if neg then [chr "-"] else [])
                         ++ w1 ++ chr "." :: w2)
                    = let '(ip, s2) := span isDigit (w1 ++ chr "." :: w2) in
                      match ip, s2 with
                      | _ :: _, dot :: s3 =>
                          if (dot =? chr ".")%N then
                            let '(fp, s4) := span isDigit s3 in
                            match fp, s4 with
                            | _ :: _, [] => Some (neg, ip, fp)
                            | _, _ => None
                            end
                          else None
                      | _, _ => None
                      end).
    { destruct neg; [reflexivity|].
      destruct w1 as [|x w1]; [contradiction|].
      simpl in Hd1. apply andb_prop in Hd1 as [Hx _].
      unfold decimalShape. simpl app. cbv beta iota.
      now rewrite (isDigit_not_minus _ Hx). }
    rewrite Hrest, (span_run isDigit w1 (chr "." :: w2) Hd1 eq_refl).
    destruct w1 as [|x w1]; [contradiction|].
    rewrite N.eqb_refl.
    rewrite <- (app_nil_r w2) at 1.
    rewrite (span_run isDigit w2 [] Hd2 I).
    destruct w2; [contradiction|reflexivity]. }
  destruct Hsign as [Hs|Hs].
  - exists false, w1, w2. unfold parseFloat.
    rewrite (Hshape false Hs). subst sign. auto.
  - exists true, w1, w2. unfold parseFloat.
    rewrite (Hshape true Hs). subst sign. auto.
Qed.

(** Every string [parseFloat] is applied to is such a decimal. *)
Theorem exec_fields_decimal s groups :
  exec battorDataLineRE s = Some groups ->
  forall g, g = 1 \/ g = 2 \/ g = 3 ->
    exists f neg ip fp,
      groups g = Some f
      /\ f = (if neg : bool then [chr "-"] else []) ++ ip ++ chr "." :: fp
      /\ runOf isDigit ip /\ runOf isDigit fp
      /\ parseFloatCapture (groups g)
         = ofDecimal neg (digitsValue (ip ++ fp)) (length fp).
Proof.
  intros Hexec g Hg.
  destruct (dataLine_fields _ Hexec)
    as (f1 & f2 & f3 & H1 & H2 & H3 & Hf1 & Hf2 & Hf3).
  destruct Hg as [->|[->| ->]];
    [ destruct (parseFloat_decimal Hf1) as (neg & ip & fp & Hf & Hi & Hp & Hv);
      exists f1
    | destruct (parseFloat_decimal Hf2) as (neg & ip & fp & Hf & Hi & Hp & Hv);
      exists f2
    | destruct (parseFloat_decimal Hf3) as (neg & ip & fp & Hf & Hi & Hp & Hv);
      exists f3 ];
    exists neg, ip, fp;
    [rewrite H1|rewrite H2|rewrite H3]; simpl; auto.
Qed.

Lemma trimEnd_last s l :
  isWhiteSpace l = false -> trimEnd (s ++ [l]) = s ++ [l].
Proof.
  intros Hl. unfold trimEnd. rewrite rev_app_distr. simpl. rewrite Hl.
  simpl. now rewrite rev_involutive.
Qed.

(** Trimming leaves a string alone when neither its first nor its last
    character is white space. *)
Lemma trim_identity s x t init l :
  s = x :: t -> s = init ++ [l] ->
  isWhiteSpace x = false -> isWhiteSpace l = false ->
  trim s = s.
Proof.
  intros Hhead Hlast Hx Hl. unfold trim, trimStart.
  rewrite Hhead at 1. simpl. rewrite Hx, <- Hhead, Hlast.
  now apply trimEnd_last.
Qed.

Lemma decimal_last f :
  isDecimal f -> exists init l, f = init ++ [l] /\ isDigit l = true.
Proof.
  intros (sign & w1 & w2 & -> & _ & _ & (Hne & Hd)).
  destruct (exists_last Hne) as (init & l & ->).
  rewrite forallb_app in Hd. apply andb_prop in Hd as [_ Hl].
  simpl in Hl. rewrite andb_true_r in Hl.
  exists (sign ++ w1 ++ chr "." :: init), l.
  split; [|exact Hl]. now rewrite <- !app_assoc.
Qed.

(** A line that matches the data-line pattern as it stands is its own
    trimmed text. *)
Theorem dataLine_trim s groups :
  exec battorDataLineRE s = Some groups -> trim s = s.
Proof.
  intros Hexec.
  apply exec_dataLine_inv in Hexec
    as (f1 & w1 & f2 & w2 & f3 & tail & -> & Hf1 & _ & _ & _ & Hf3
        & _ & _ & _ & Htail).
  destruct (decimal_head (w1 ++ f2 ++ w2 ++ f3 ++ tail) Hf1)
    as (x & t & Hhead & Hx).
  assert (Hxws : isWhiteSpace x = false)
    by (destruct Hx as [->|Hx];
        [reflexivity|now apply isDigit_not_whitespace]).
  destruct Htail as [(-> & _)|(w & id & -> & _ & _ & _)].
  - destruct (decimal_last Hf3) as (init & l & -> & Hl).
    apply (@trim_identity _ x t (f1 ++ w1 ++ f2 ++ w2 ++ init) l Hhead);
      auto using isDigit_not_whitespace.
    now rewrite app_nil_r, <- !app_assoc.
  - apply (@trim_identity
             _ x t (f1 ++ w1 ++ f2 ++ w2 ++ f3 ++ w ++ chr "<" :: id)
             (chr ">") Hhead); auto.
    now rewrite <- !app_assoc.
Qed.

End ShapeFacts.

(** ** The data-line pattern matches every line of the grammar *)

Module MatchFacts.
Import JSString RegExp JSNumber Battor BattorSpec.
Import RegExpFacts BattorFacts ShapeFacts.

Lemma greedy_class_cons p k n i x s c :
  greedy (run (Class p)) k n i (x :: s) c =
  if p x then
    match n with
    | O => k (S i) s c
    | S n' =>
        match greedy (run (Class p)) k n' (S i) s c with
        | Some r => Some r
        | None => k (S i) s c
        end
    end
  else None.
Proof. destruct n; reflexivity. Qed.

Lemma greedy_stops p k n i rest c :
  stops p rest -> greedy (run (Class p)) k n i rest c = None.
Proof.
  destruct rest as [|x rest]; [destruct n; reflexivity|].
  unfold stops. intros Hx. now rewrite greedy_class_cons, Hx.
Qed.

(** When the continuation accepts what follows the longest run of the
    class, that is the match: the longest run is tried first. *)
Lemma greedy_class_longest p k w :
  forall n i rest c res,
    forallb p w = true -> w <> [] -> stops p rest ->
    length w <= S n ->
    k (i + length w) rest c = Some res ->
    greedy (run (Class p)) k n i (w ++ rest) c = Some res.
Proof.
  induction w as [|x w IH]; intros n i rest c res Hw Hne Hstop Hlen Hk;
    [contradiction|].
  simpl in Hw. apply andb_prop in Hw as [Hx Hw].
  simpl app. rewrite greedy_class_cons, Hx.
  destruct w as [|y w].
  - simpl in Hk. rewrite Nat.add_1_r in Hk. simpl app.
    destruct n; [exact Hk|]. now rewrite greedy_stops.
  - destruct n as [|n]; [simpl in Hlen; lia|].
    rewrite (IH n (S i) rest c res); auto; try discriminate.
    + simpl in Hlen |- *. lia.
    + simpl length in Hk |- *. now rewrite Nat.add_succ_r in Hk.
Qed.

(** When the continuation rejects the end of the input and accepts one
    character before it, the run gives that last character back. *)
Lemma greedy_class_backoff p k w :
  forall n i y c res,
    forallb p w = true -> w <> [] -> p y = true ->
    length w <= n ->
    (forall c', k (i + length w + 1) [] c' = None) ->
    k (i + length w) [y] c = Some res ->
    greedy (run (Class p)) k n i (w ++ [y]) c = Some res.
Proof.
  induction w as [|x w IH]; intros n i y c res Hw Hne Hy Hlen Hend Hk;
    [contradiction|].
  simpl in Hw. apply andb_prop in Hw as [Hx Hw].
  simpl app. rewrite greedy_class_cons, Hx.
  destruct n as [|n]; [simpl in Hlen; lia|].
  destruct w as [|z w].
  - simpl app. rewrite greedy_class_cons, Hy.
    simpl in Hk, Hend. rewrite Nat.add_1_r in Hk.
    replace (i + 1 + 1) with (S (S i)) in Hend by lia.
    assert (Hnone : match n with
                    | O => k (S (S i)) [] c
                    | S n' =>
                        match greedy (run (Class p)) k n' (S (S i)) [] c with
                        | Some r => Some r
                        | None => k (S (S i)) [] c
                        end
                    end = None).
    { destruct n; [apply Hend|]. rewrite greedy_stops by exact I. apply Hend. }
    now rewrite Hnone.
  - rewrite (IH n (S i) y c res); auto; try discriminate.
    + simpl in Hlen |- *. lia.
    + intros c'. specialize (Hend c'). simpl length in Hend |- *.
      now replace (S i + S (length w) + 1)
        with (i + S (S (length w)) + 1) by lia.
    + simpl length in Hk |- *. now rewrite Nat.add_succ_r in Hk.
Qed.

Lemma run_plus_class_longest p i w rest c k res :
  runOf p w -> stops p rest ->
  k (i + length w) rest c = Some res ->
  run (Plus (Class p)) i (w ++ rest) c k = Some res.
Proof.
  intros [Hne Hw] Hstop Hk.
  change (greedy (run (Class p)) k (length (w ++ rest)) i (w ++ rest) c
          = Some res).
  apply greedy_class_longest; auto. rewrite length_app. lia.
Qed.

Lemma run_chr_take a i s c k :
  run (Chr a) i (a :: s) c k = k (S i) s c.
Proof. simpl. now rewrite N.eqb_refl. Qed.

Lemma run_opt_chr_skip a i x s c k :
  (x =? a)%N = false -> run (Opt (Chr a)) i (x :: s) c k = k i (x :: s) c.
Proof. intros Hx. simpl. now rewrite Hx. Qed.

Lemma run_opt_chr_take a i s c k res :
  k (S i) s c = Some res -> run (Opt (Chr a)) i (a :: s) c k = Some res.
Proof. intros Hk. simpl. now rewrite N.eqb_refl, Hk. Qed.

Lemma run_decimal_complete f rest i c k res :
  isDecimal f -> stops isDigit rest ->
  k (i + length f) rest c = Some res ->
  run decimalRE i (f ++ rest) c k = Some res.
Proof.
  intros (sign & w1 & w2 & -> & Hsign & Hw1 & Hw2) Hstop Hk.
  assert (Hdigits :
            run (Cat (Plus (Class isDigit))
                     (Cat (Chr (chr ".")) (Plus (Class isDigit))))
                (i + length sign) (w1 ++ chr "." :: w2 ++ rest) c k
            = Some res).
  { rewrite run_cat. apply run_plus_class_longest; [exact Hw1|reflexivity|].
    rewrite run_cat, run_chr_take.
    apply run_plus_class_longest; [exact Hw2|exact Hstop|].
    rewrite !length_app in Hk. simpl length in Hk.
    now replace (S (i + length sign + length w1) + length w2)
      with (i + (length sign + (length w1 + S (length w2)))) by lia. }
  unfold decimalRE. rewrite run_cat.
  replace ((sign ++ w1 ++ chr "." :: w2) ++ rest)
    with (sign ++ w1 ++ chr "." :: w2 ++ rest)
    by now rewrite <- !app_assoc, <- app_comm_cons.
  destruct Hsign as [-> | ->].
  - simpl length in Hdigits. rewrite Nat.add_0_r in Hdigits.
    simpl app. destruct Hw1 as [Hne Hd].
    destruct w1 as [|x w1]; [contradiction|].
    simpl in Hd. apply andb_prop in Hd as [Hx _].
    simpl app in Hdigits |- *.
    rewrite run_opt_chr_skip by now apply isDigit_not_minus.
    exact Hdigits.
  - simpl length in Hdigits. rewrite Nat.add_1_r in Hdigits.
    simpl app. now apply run_opt_chr_take.
Qed.

Lemma run_field_complete g f rest i c k res :
  isDecimal f -> stops isDigit rest ->
  k (i + length f) rest (set_capture g f c) = Some res ->
  run (Group g decimalRE) i (f ++ rest) c k = Some res.
Proof.
  intros Hf Hstop Hk. rewrite run_group.
  apply run_decimal_complete; auto. now rewrite firstn_consumed.
Qed.

Lemma run_sync_complete tail i c c' k res :
  isSyncTail tail c c' ->
  k (i + length tail) [] c' = Some res ->
  run (Cat syncRE Eol) i tail c k = Some res.
Proof.
  intros [(-> & ->)|(w & id & -> & Hw & Hid & ->)] Hk.
  - simpl in Hk. rewrite Nat.add_0_r in Hk. exact Hk.
  - assert (Hinner :
              run (Cat (Plus (Class isWhiteSpace))
                       (Cat (Chr (chr "<"))
                            (Cat (Group 4 (Plus (Class isNonWhiteSpace)))
                                 (Chr (chr ">")))))
                  i (w ++ chr "<" :: id ++ [chr ">"]) c
                  (fun i' s' c' => run Eol i' s' c' k)
              = Some res).
    { rewrite run_cat. apply run_plus_class_longest; [exact Hw|reflexivity|].
      rewrite run_cat, run_chr_take. cbv beta. rewrite run_cat, run_group.
      destruct Hid as [Hne Hnws].
      change (greedy (run (Class isNonWhiteSpace))
                     (fun i' s' c' =>
                        run (Chr (chr ">")) i' s'
                            (set_capture
                               4 (firstn (i' - S (i + length w))
                                         (id ++ [chr ">"])) c')
                            (fun i'' s'' c'' => run Eol i'' s'' c'' k))
                     (length (id ++ [chr ">"])) (S (i + length w))
                     (id ++ [chr ">"]) c
              = Some res).
      apply greedy_class_backoff; auto.
      - rewrite length_app. lia.
      - rewrite firstn_consumed. simpl.
        rewrite !length_app in Hk. simpl length in Hk.
        rewrite length_app in Hk. simpl length in Hk.
        now replace (S (S (i + length w + length id)))
          with (i + (length w + S (length id + 1))) by lia. }
    rewrite run_cat. unfold syncRE.
    change (match run (Cat (Plus (Class isWhiteSpace))
                           (Cat (Chr (chr "<"))
                                (Cat (Group 4 (Plus (Class isNonWhiteSpace)))
                                     (Chr (chr ">")))))
                      i (w ++ chr "<" :: id ++ [chr ">"]) c
                      (fun i' s' c' => run Eol i' s' c' k) with
            | Some r => Some r
            | None => run Eol i (w ++ chr "<" :: id ++ [chr ">"]) c k
            end = Some res).
    now rewrite Hinner.
Qed.

Lemma whitespace_not_digit c : isWhiteSpace c = true -> isDigit c = false.
Proof.
  intros Hc. destruct (isDigit c) eqn:Hd; [|reflexivity].
  apply isDigit_not_whitespace in Hd. congruence.
Qed.

Lemma stops_digit_at_whitespace w rest :
  runOf isWhiteSpace w -> stops isDigit (w ++ rest).
Proof.
  intros [Hne Hw]. destruct w as [|x w]; [contradiction|].
  simpl in Hw |- *. apply andb_prop in Hw as [Hx _].
  now apply whitespace_not_digit.
Qed.

Lemma stops_whitespace_at_decimal f rest :
  isDecimal f -> stops isWhiteSpace (f ++ rest).
Proof.
  intros Hf. destruct (decimal_head rest Hf) as (x & t & -> & [->|Hx]).
  - reflexivity.
  - simpl. now apply isDigit_not_whitespace.
Qed.

(** Every line made of three decimals separated by white space, with or
    without a sync token in angle brackets after more white space, is
    matched, and the captures are the three decimals and the token. *)
Theorem exec_dataLine_complete f1 w1 f2 w2 f3 tail sync :
  isDecimal f1 -> runOf isWhiteSpace w1 ->
  isDecimal f2 -> runOf isWhiteSpace w2 ->
  isDecimal f3 ->
  (tail = [] /\ sync = None)
  \/ (exists w id,
         tail = w ++ chr "<" :: id ++ [chr ">"]
         /\ runOf isWhiteSpace w /\ runOf isNonWhiteSpace id
         /\ sync = Some id) ->
  exists groups,
    exec battorDataLineRE (f1 ++ w1 ++ f2 ++ w2 ++ f3 ++ tail) = Some groups
    /\ groups 1 = Some f1 /\ groups 2 = Some f2 /\ groups 3 = Some f3
    /\ groups 4 = sync.
Proof.
  intros Hf1 Hw1 Hf2 Hw2 Hf3 Htail.
  set (c3 := set_capture 3 f3 (set_capture 2 f2
                                           (set_capture 1 f1 no_captures))).
  assert (Hsync : exists c4, isSyncTail tail c3 c4 /\ c4 4 = sync
                             /\ c4 1 = Some f1 /\ c4 2 = Some f2
                             /\ c4 3 = Some f3).
  { destruct Htail as [(-> & ->)|(w & id & -> & Hw & Hid & ->)].
    - exists c3. repeat split. now left.
    - exists (set_capture 4 id c3). repeat split. right. now exists w, id. }
  destruct Hsync as (c4 & Hsync & H4 & H1 & H2 & H3).
  eexists. split.
  - unfold battorDataLineRE. rewrite exec_bol, run_cat.
    apply run_field_complete;
      [exact Hf1|now apply stops_digit_at_whitespace|].
    rewrite run_cat. apply run_plus_class_longest;
      [exact Hw1|now apply stops_whitespace_at_decimal|].
    rewrite run_cat. apply run_field_complete;
      [exact Hf2|now apply stops_digit_at_whitespace|].
    rewrite run_cat. apply run_plus_class_longest;
      [exact Hw2|now apply stops_whitespace_at_decimal|].
    rewrite run_cat. apply run_field_complete; [exact Hf3| |].
    + destruct Htail as [(-> & _)|(w & id & -> & Hw & _)];
        [exact I|now apply stops_digit_at_whitespace].
    + eapply run_sync_complete; [exact Hsync|reflexivity].
  - unfold set_capture at 1 2 3 4. simpl Nat.eqb. cbv iota. auto.
Qed.

End MatchFacts.

Module ImportFacts.
Import JSString RegExp JSNumber JSValue TraceModel Battor BattorSpec.
Import RegExpFacts BattorFacts.

Section Importer.
Context {M : Type} `{ClockSyncManagerOps M}.

Lemma loop_syncIds lines :
  forall (model : Model M) samples,
    Forall syncIdParsed samples ->
    Forall syncIdParsed (snd (linesToSamples_loop lines model samples)).
Proof.
  induction lines as [|line rest IH]; intros model samples Hs.
  - exact Hs.
  - rewrite loop_cons.
    destruct (Nat.eqb (length (trim line)) 0); [now apply IH|].
    destruct (startsWith (trim line) (js "#")); [now apply IH|].
    destruct (exec battorDataLineRE (trim line)) as [groups|] eqn:Hexec;
      [|now apply IH].
    destruct (lt _ _ || lt _ _); [now apply IH|].
    apply IH, Forall_app. split; [exact Hs|].
    constructor; [|constructor].
    exact (dataLine_syncId _ Hexec).
Qed.

Lemma newBattorImporter_syncIds (model : Model M) events :
  Forall syncIdParsed (samples_ (snd (newBattorImporter model events))).
Proof.
  unfold newBattorImporter, linesToSamples_.
  pose proof (loop_syncIds (split newline events) model (samples := []))
    as Hs.
  destruct (linesToSamples_loop (split newline events) model [])
    as [model1 samples].
  apply Hs. constructor.
Qed.

Lemma importClockSyncMarkers_loop_spec samples :
  forall manager : M,
    Forall syncIdParsed samples ->
    importClockSyncMarkers_loop samples manager =
    fold_left (fun m marker =>
                 addClockSyncMarker m BATTOR (fst marker) (snd marker))
              (syncMarkers samples) manager.
Proof.
  induction samples as [|sample rest IH]; intros manager Hs.
  - reflexivity.
  - inversion Hs as [|? ? Hsample Hrest]; subst.
    simpl. unfold syncIdParsed in Hsample. rewrite Hsample.
    destruct (syncId sample) as [id|]; simpl; now apply IH.
Qed.

Lemma importEvents_loop_spec f samples :
  forall series,
    importEvents_loop f samples series =
    series ++ map (powerSampleOf f) samples.
Proof.
  induction samples as [|sample rest IH]; intros series; simpl.
  - now rewrite app_nil_r.
  - rewrite IH. unfold addPowerSample. now rewrite <- app_assoc.
Qed.

Lemma fold_importWarning_device warnings :
  forall model : Model M,
    device (fold_left importWarning warnings model) = device model.
Proof.
  induction warnings as [|w ws IH]; intros model; simpl; [reflexivity|].
  now rewrite IH.
Qed.

(** What [importEvents] leaves in the device when it had no series. *)
Lemma importEvents_series (this : BattorImporter) (model : Model M) :
  powerSeries (device model) = None ->
  powerSeries (device (importEvents this model)) =
  Some (map (powerSampleOf
               (snd (getModelTimeTransformer
                       (clockSyncManager model) BATTOR)))
            (samples_ this)).
Proof.
  intros Hnone. unfold importEvents. rewrite Hnone.
  destruct (getModelTimeTransformer (clockSyncManager model) BATTOR)
    as [[manager warnings] f].
  simpl. now rewrite importEvents_loop_spec.
Qed.

(** What [importEvents] does when the device has a series. *)
Lemma importEvents_conflict (this : BattorImporter) (model : Model M)
      series :
  powerSeries (device model) = Some series ->
  importEvents this model = importWarning model powerCounterExists.
Proof. intros Hsome. unfold importEvents. now rewrite Hsome. Qed.


End Importer.

End ImportFacts.


(** ** Facts about the header pattern *)

Module HeaderFacts.
Import JSString RegExp Battor RegExpFacts.

(** A run of literal characters matches exactly when the input starts
    with them. *)
Lemma run_literal l :
  forall i s c k,
    run (literal l) i s c k =
    if startsWith s l then k (i + length l) (skipn (length l) s) c
    else None.
Proof.
  induction l as [|a l IH]; intros i s c k.
  - simpl. now rewrite Nat.add_0_r.
  - simpl literal. rewrite run_cat.
    destruct s as [|x s]; [reflexivity|].
    simpl. destruct (N.eqb x a); [|reflexivity].
    rewrite IH. now rewrite Nat.add_succ_r.
Qed.

Lemma test_header s :
  test battorHeaderLineRE s = startsWith s (js "# BattOr").
Proof.
  unfold test, battorHeaderLineRE. rewrite exec_bol, run_literal.
  now destruct (startsWith s (js "# BattOr")).
Qed.

End HeaderFacts.

Module LongTasksFacts.
Import JSString JSNumber LongTasks.

Section Metric.
Context {Numeric : Type} `{NumericOps Numeric}.

Lemma iterateLong_unranged {A} (cb : A -> Slice -> A) slices :
  forall acc,
    iterateLongTopLevelTasksOnThreadInRange
      {| topLevelSlices := slices |} None cb acc =
    fold_left cb (filter notShort slices) acc.
Proof.
  unfold iterateLongTopLevelTasksOnThreadInRange. simpl.
  induction slices as [|slice rest IH]; intros acc; simpl; [reflexivity|].
  unfold notShort at 1.
  destruct (lt (duration slice) LONG_TASK_MS); simpl; apply IH.
Qed.

(** The metric adds to a fresh numeric the duration and the stable id of
    each main-thread top-level task that is not shorter than
    LONG_TASK_MS, in order, and of no other. *)
Lemma longTasksMetric_spec (values : list (NumericValue Numeric)) model :
  longTasksMetric values model =
  values
    ++ [{| name := js "long tasks";
           numeric :=
             fold_left (fun numeric task =>
                          add numeric (duration task) (stableId task))
                       (filter notShort (mainThreadTasks model))
                       (build LONG_TASK_NUMERIC_BUILDER) |}].
Proof.
  unfold longTasksMetric, iterateRendererMainThreads, mainThreadTasks.
  do 3 f_equal.
  generalize (build LONG_TASK_NUMERIC_BUILDER).
  induction (rendererHelpers model) as [|helper rest IH]; intros numeric;
    simpl; [reflexivity|].
  destruct (mainThread helper) as [[slices]|]; simpl; [|apply IH].
  rewrite iterateLong_unranged, filter_app, fold_left_app. apply IH.
Qed.

End Metric.

End LongTasksFacts.


(** ** The claims about line parsing *)

Section LineClaims.
Import JSString RegExp JSNumber JSValue TraceModel Battor BattorSpec Examples.
Import RegExpFacts JSNumberFacts BattorFacts.

Context {M : Type} `{ClockSyncManagerOps M}.

(** C1. A line that, once trimmed, matches the data-line pattern and whose
    second and third fields are not below zero contributes exactly one
    sample, at its place among the samples of the other lines, and no
    warning: its voltage is the second field divided by 1000, its current
    the third field divided by 1000, and its power is voltage times
    current.  (A line that matches as it stands is its own trimmed text,
    [ShapeFacts.dataLine_trim]; the lines that match are those of
    [RegExpFacts.exec_dataLine_inv] and [MatchFacts.exec_dataLine_complete].)
    The end-to-end trace gives two samples of power 0.5 each and no import
    warning, after parsing and after both import phases. *)
Theorem C1_data_line_yields_sample :
  (forall (model : Model M) pre line post groups,
      exec battorDataLineRE (trim line) = Some groups ->
      lt (parseFloatCapture (groups 2)) (ofZ 0) = false ->
      lt (parseFloatCapture (groups 3)) (ofZ 0) = false ->
      exists f1 f2 f3,
        groups 1 = Some f1 /\ groups 2 = Some f2 /\ groups 3 = Some f3
        /\ let sample :=
             {| ts := parseFloat f1;
                voltage := div (parseFloat f2) (ofZ 1000);
                current := div (parseFloat f3) (ofZ 1000);
                syncId := groups 4 |} in
           linesToSamples_ model (pre ++ line :: post) =
           (let '(model1, samples1) := linesToSamples_ model pre in
            let '(model2, samples2) := linesToSamples_ model1 post in
            (model2, samples1 ++ sample :: samples2))
           /\ Sample_power sample =
              mul (div (parseFloat f2) (ofZ 1000))
                  (div (parseFloat f3) (ofZ 1000)))
  /\ (let '(model, importer) := newBattorImporter emptyModel endToEndTrace in
      map Sample_power (samples_ importer) = [half; half]
      /\ importWarnings model = []
      /\ importWarnings
           (importEvents importer (importClockSyncMarkers importer model))
         = []).
Proof.
  split; [|vm_compute; auto].
  intros model pre line post groups Hexec Hv Hc.
  destruct (dataLine_fields _ Hexec) as (f1 & f2 & f3 & H1 & H2 & H3 & _).
  destruct (dataLine_not_skipped _ Hexec) as [Hblank Hcomment].
  exists f1, f2, f3. repeat (split; [assumption|]).
  split; [|reflexivity].
  apply (line_in_context
           pre line post model (fun m => m)
           [{| ts := parseFloat f1;
               voltage := div (parseFloat f2) (ofZ 1000);
               current := div (parseFloat f3) (ofZ 1000);
               syncId := groups 4 |}]).
  intros m samples. rewrite loop_cons, Hblank, Hcomment, Hexec.
  change (voltage (sampleOf groups))
    with (div (parseFloatCapture (groups 2)) (ofZ 1000)).
  change (current (sampleOf groups))
    with (div (parseFloatCapture (groups 3)) (ofZ 1000)).
  rewrite (div_1000_not_negative _ Hv), (div_1000_not_negative _ Hc).
  unfold sampleOf. rewrite H1, H2, H3. reflexivity.
Qed.

(** C2. A line that, once trimmed, is not blank, is not a comment and does
    not match the data-line pattern adds exactly one parse warning, whose
    message ends with the trimmed text of the line, and no sample; the
    lines after it are parsed from there, and add what they add against
    any model ([BattorFacts.linesToSamples_frame]).  Parsing is a total
    function: it always returns the model and the samples. *)
Theorem C2_unrecognized_line_warns :
  forall (model : Model M) pre line post,
    length (trim line) <> 0 ->
    startsWith (trim line) (js "#") = false ->
    exec battorDataLineRE (trim line) = None ->
    let warning :=
      {| type := js "parse_error";
         message := js "Unrecognized line in BattOr trace: " ++ trim line |} in
    linesToSamples_ model (pre ++ line :: post) =
    (let '(model1, samples1) := linesToSamples_ model pre in
     let '(model2, samples2) :=
       linesToSamples_ (importWarning model1 warning) post in
     (model2, samples1 ++ samples2))
    /\ forall model1 : Model M,
        importWarnings (importWarning model1 warning) =
        importWarnings model1 ++ [warning].
Proof.
  intros model pre line post Hblank Hcomment Hexec warning.
  split; [|reflexivity].
  apply (line_in_context pre line post model
                         (fun m => importWarning m warning) []).
  intros m samples. rewrite loop_cons, Hcomment, Hexec, app_nil_r.
  apply Nat.eqb_neq in Hblank. now rewrite Hblank.
Qed.

(** C3, as the code has it.  A line that, once trimmed, matches the
    data-line pattern and whose voltage or current, the field divided by
    1000, is below zero adds exactly one parse warning and no sample; the
    lines before and after it are parsed as they are without it
    ([BattorFacts.linesToSamples_frame]). *)
Theorem C3_negative_sample_skipped :
  forall (model : Model M) pre line post groups,
    exec battorDataLineRE (trim line) = Some groups ->
    lt (div (parseFloatCapture (groups 2)) (ofZ 1000)) (ofZ 0) = true
    \/ lt (div (parseFloatCapture (groups 3)) (ofZ 1000)) (ofZ 0) = true ->
    let warning := negativeLine (trim line) in
    linesToSamples_ model (pre ++ line :: post) =
    (let '(model1, samples1) := linesToSamples_ model pre in
     let '(model2, samples2) :=
       linesToSamples_ (importWarning model1 warning) post in
     (model2, samples1 ++ samples2))
    /\ forall model1 : Model M,
        importWarnings (importWarning model1 warning) =
        importWarnings model1 ++ [warning].
Proof.
  intros model pre line post groups Hexec Hneg warning.
  split; [|reflexivity].
  destruct (dataLine_not_skipped _ Hexec) as [Hblank Hcomment].
  apply (line_in_context pre line post model
                         (fun m => importWarning m warning) []).
  intros m samples. rewrite loop_cons, Hblank, Hcomment, Hexec, app_nil_r.
  change (voltage (sampleOf groups))
    with (div (parseFloatCapture (groups 2)) (ofZ 1000)).
  change (current (sampleOf groups))
    with (div (parseFloatCapture (groups 3)) (ofZ 1000)).
  assert (Hor : lt (div (parseFloatCapture (groups 2)) (ofZ 1000)) (ofZ 0)
                || lt (div (parseFloatCapture (groups 3)) (ofZ 1000)) (ofZ 0)
                = true)
    by (apply orb_true_iff; exact Hneg).
  now rewrite Hor.
Qed.

End LineClaims.

Section LineWitnesses.
Import JSString RegExp JSNumber JSValue TraceModel Battor Examples.

Lemma C1_data_line_yields_sample_witness :
  exec battorDataLineRE (trim syncLine) = Some (capturesOf syncLine)
  /\ lt (parseFloatCapture (capturesOf syncLine 2)) (ofZ 0) = false
  /\ lt (parseFloatCapture (capturesOf syncLine 3)) (ofZ 0) = false
  /\ exists f1 f2 f3,
      capturesOf syncLine 1 = Some f1
      /\ capturesOf syncLine 2 = Some f2
      /\ capturesOf syncLine 3 = Some f3
      /\ let sample :=
           {| ts := parseFloat f1;
              voltage := div (parseFloat f2) (ofZ 1000);
              current := div (parseFloat f3) (ofZ 1000);
              syncId := capturesOf syncLine 4 |} in
         linesToSamples_
           emptyModel ([js "# BattOr"; js "0.0 1000.0 500.0"]
                         ++ syncLine :: [[]]) =
         (let '(model1, samples1) :=
            linesToSamples_
              emptyModel [js "# BattOr"; js "0.0 1000.0 500.0"] in
          let '(model2, samples2) := linesToSamples_ model1 [[]] in
          (model2, samples1 ++ sample :: samples2))
         /\ Sample_power sample =
            mul (div (parseFloat f2) (ofZ 1000))
                (div (parseFloat f3) (ofZ 1000)).
Proof.
  repeat (split; [vm_compute; reflexivity|]).
  apply (proj1 C1_data_line_yields_sample
               emptyModel [js "# BattOr"; js "0.0 1000.0 500.0"]
               syncLine [[]] (capturesOf syncLine));
    vm_compute; reflexivity.
Defined.

Lemma C2_unrecognized_line_warns_witness :
  length (trim (js " 1.0 volts ")) <> 0
  /\ startsWith (trim (js " 1.0 volts ")) (js "#") = false
  /\ exec battorDataLineRE (trim (js " 1.0 volts ")) = None
  /\ linesToSamples_ emptyModel
                     ([js "# BattOr"] ++ js " 1.0 volts " :: [syncLine])
     = (importWarning
          emptyModel
          {| type := js "parse_error";
             message := js "Unrecognized line in BattOr trace: 1.0 volts" |},
        [{| ts := one; voltage := one; current := half;
            syncId := Some (js "sync1") |}]).
Proof.
  split; [vm_compute; discriminate|].
  repeat (split; [vm_compute; reflexivity|]).
  rewrite (proj1 (@C2_unrecognized_line_warns
                    _ emptyModel [js "# BattOr"] (js " 1.0 volts ")
                    [syncLine]
                    ltac:(vm_compute; discriminate)
                    ltac:(vm_compute; reflexivity)
                    ltac:(vm_compute; reflexivity))).
  vm_compute. reflexivity.
Defined.

Lemma C3_negative_sample_skipped_witness :
  exec battorDataLineRE (trim (js "2.0 -1000.0 500.0"))
  = Some (capturesOf (js "2.0 -1000.0 500.0"))
  /\ (lt (div (parseFloatCapture (capturesOf (js "2.0 -1000.0 500.0") 2))
              (ofZ 1000)) (ofZ 0) = true
      \/ lt (div (parseFloatCapture (capturesOf (js "2.0 -1000.0 500.0") 3))
                 (ofZ 1000)) (ofZ 0) = true)
  /\ linesToSamples_ emptyModel
                     ([js "# BattOr"] ++ js "2.0 -1000.0 500.0" :: [syncLine])
     = (importWarning emptyModel (negativeLine (js "2.0 -1000.0 500.0")),
        [{| ts := one; voltage := one; current := half;
            syncId := Some (js "sync1") |}]).
Proof.
  split; [vm_compute; reflexivity|].
  split; [left; vm_compute; reflexivity|].
  rewrite (proj1 (@C3_negative_sample_skipped
                    _ emptyModel [js "# BattOr"] (js "2.0 -1000.0 500.0")
                    [syncLine] (capturesOf (js "2.0 -1000.0 500.0"))
                    ltac:(vm_compute; reflexivity)
                    ltac:(left; vm_compute; reflexivity))).
  vm_compute. reflexivity.
Defined.

(** C3, as stated, fails.  The voltage field of this line is the negative
    decimal -1e-323, which [parseFloat] reads as the negative Number
    -2 * 2^-1074; divided by 1000 it rounds to -0, which is not below
    zero, so the line gives a sample and no warning. *)
Lemma C3_negative_field_kept :
  exec battorDataLineRE (trim tinyNegativeLine)
  = Some (capturesOf tinyNegativeLine)
  /\ capturesOf tinyNegativeLine 2 = Some tinyNegativeField
  /\ parseFloat tinyNegativeField = S754_finite true 2 (-1074)
  /\ lt (parseFloat tinyNegativeField) (ofZ 0) = true
  /\ div (parseFloat tinyNegativeField) (ofZ 1000) = S754_zero true
  /\ lt (S754_zero true) (ofZ 0) = false
  /\ linesToSamples_ emptyModel [tinyNegativeLine]
     = (emptyModel,
        [{| ts := S754_zero false; voltage := S754_zero true;
            current := half; syncId := None |}]).
Proof. repeat split; vm_compute; reflexivity. Qed.

End LineWitnesses.

Section ImportClaims.
Import JSString RegExp JSNumber JSValue TraceModel Battor BattorSpec Examples.
Import RegExpFacts BattorFacts ImportFacts.

Context {M : Type} `{ClockSyncManagerOps M}.

(** C5. When the device of the model already has a power series,
    [importEvents] returns the model with exactly one more warning, of
    kind import_error, at the end of its log; the device, and so the
    existing series, and the clock sync manager are as they were. *)
Theorem C5_existing_series_refused :
  forall (this : BattorImporter) (model : Model M) series,
    powerSeries (device model) = Some series ->
    importWarnings (importEvents this model) =
    importWarnings model
      ++ [{| type := js "import_error";
             message :=
               js "Power counter exists, can not import BattOr power trace."
           |}]
    /\ powerSeries (device (importEvents this model)) = Some series
    /\ device (importEvents this model) = device model
    /\ clockSyncManager (importEvents this model) = clockSyncManager model.
Proof.
  intros this model series Hsome.
  rewrite (importEvents_conflict this model Hsome). simpl. auto.
Qed.

(** C6. For the samples parsed from any trace, [importClockSyncMarkers]
    hands the manager one marker per sample that has a sync id, in order,
    each with the BattOr domain, the sample's sync id and the sample's own
    timestamp; it leaves the device and the warnings alone.  On the
    end-to-end trace the manager receives exactly one marker: sync1, at
    the timestamp 1 of the second line. *)
Theorem C6_one_marker_per_sync_id :
  (forall (model : Model M) events,
      let '(model1, importer) := newBattorImporter model events in
      let model2 := importClockSyncMarkers importer model1 in
      clockSyncManager model2 =
      fold_left (fun m marker =>
                   addClockSyncMarker m BATTOR (fst marker) (snd marker))
                (syncMarkers (samples_ importer))
                (clockSyncManager model1)
      /\ device model2 = device model1
      /\ importWarnings model2 = importWarnings model1)
  /\ (let '(model1, importer) := newBattorImporter emptyModel endToEndTrace in
      syncMarkers (samples_ importer) = [(js "sync1", one)]
      /\ clockSyncManager (importClockSyncMarkers importer model1)
         = [(BATTOR, js "sync1", one)]).
Proof.
  split; [|vm_compute; auto].
  intros model events.
  pose proof (newBattorImporter_syncIds model events) as Hs.
  destruct (newBattorImporter model events) as [model1 importer].
  simpl in Hs. repeat split.
  simpl. now apply importClockSyncMarkers_loop_spec.
Qed.

(** C7. When the device has no power series, [importEvents] gives it one
    that holds exactly one power sample per parsed sample, in the order of
    the samples: its timestamp is the BattOr domain's transformer applied
    to the sample's timestamp, its value the sample's power. *)
Theorem C7_one_power_sample_per_sample :
  forall (this : BattorImporter) (model : Model M),
    powerSeries (device model) = None ->
    let modelTimeTransformer :=
      snd (getModelTimeTransformer (clockSyncManager model) BATTOR) in
    powerSeries (device (importEvents this model)) =
    Some (map (fun sample =>
                 {| start := modelTimeTransformer (ts sample);
                    power := mul (voltage sample) (current sample) |})
              (samples_ this)).
Proof.
  intros this model Hnone. now apply importEvents_series.
Qed.

(** C10. When the device has no power series, [importEvents] always leaves
    it with one, empty when the importer has no samples; any importer
    that runs [importEvents] on the model afterwards only adds the
    import_error warning and leaves that series as it is. *)
Theorem C10_series_always_installed :
  forall (this : BattorImporter) (model : Model M),
    powerSeries (device model) = None ->
    exists series,
      powerSeries (device (importEvents this model)) = Some series
      /\ length series = length (samples_ this)
      /\ forall later : BattorImporter,
          importEvents later (importEvents this model) =
          importWarning (importEvents this model) powerCounterExists
          /\ powerSeries
               (device (importEvents later (importEvents this model)))
             = Some series.
Proof.
  intros this model Hnone.
  pose proof (importEvents_series this model Hnone) as Hseries.
  eexists. split; [exact Hseries|]. split; [apply length_map|].
  intros later.
  rewrite (importEvents_conflict later (importEvents this model) Hseries).
  split; [reflexivity|exact Hseries].
Qed.

End ImportClaims.

Section ImportWitnesses.
Import JSString RegExp JSNumber JSValue TraceModel Battor BattorSpec Examples.
Import ImportFacts.

Lemma C5_existing_series_refused_witness :
  powerSeries (device populatedModel) = Some [{| start := one; power := half |}]
  /\ importWarnings (importEvents endToEndImporter populatedModel)
     = [powerCounterExists]
  /\ powerSeries (device (importEvents endToEndImporter populatedModel))
     = Some [{| start := one; power := half |}].
Proof.
  split; [reflexivity|].
  destruct (C5_existing_series_refused
              endToEndImporter populatedModel (series := [{| start := one; power := half |}])
              eq_refl) as (Hw & Hs & _).
  split; [exact Hw|exact Hs].
Defined.

Lemma C7_one_power_sample_per_sample_witness :
  powerSeries (device emptyModel) = None
  /\ powerSeries (device (importEvents endToEndImporter emptyModel))
     = Some [{| start := S754_zero false; power := half |};
             {| start := one; power := half |}].
Proof.
  split; [reflexivity|].
  rewrite (C7_one_power_sample_per_sample endToEndImporter emptyModel eq_refl).
  vm_compute. reflexivity.
Defined.


Lemma C10_series_always_installed_witness :
  powerSeries (device emptyModel) = None
  /\ exists series,
      powerSeries
        (device (importEvents {| importPriority := 3; samples_ := [] |}
                              emptyModel)) = Some series
      /\ length series = 0
      /\ importWarnings
           (importEvents
              endToEndImporter
              (importEvents {| importPriority := 3; samples_ := [] |}
                            emptyModel))
         = [powerCounterExists].
Proof.
  split; [reflexivity|].
  destruct (C10_series_always_installed
              {| importPriority := 3; samples_ := [] |} emptyModel eq_refl)
    as (series & Hseries & Hlen & Hlater).
  exists series. split; [exact Hseries|]. split; [exact Hlen|].
  rewrite (proj1 (Hlater endToEndImporter)). reflexivity.
Defined.

End ImportWitnesses.

(** ** The claim about format detection *)

Section CanImportClaims.
Import JSString RegExp JSNumber JSValue TraceModel Battor Examples.
Import RegExpFacts HeaderFacts.

(** C9, as the code has it.  For a value that is not an object [canImport]
    has no effect and does not throw: it answers whether the value is a
    string that starts with "# BattOr", so false for every other
    primitive.  The same holds for a String object with the built-in
    conversion.  For any other object it first walks the prototype chain:
    when [String.prototype] is not on it the answer is false and the object
    is not converted; when it is, the answer is that of the string the
    object converts to.  The effects and the exception of the walk and of
    the conversion are those of [canImport]. *)
Theorem C9_canImport_header :
  (forall events : value,
      canImport events =
      match events with
      | VString s => returns (startsWith s (js "# BattOr"))
      | VObject o =>
          andThen (onStringPrototypeChain o)
                  (fun isInstance =>
                     if isInstance then
                       andThen (stringConversion o)
                               (fun s =>
                                  returns (startsWith s (js "# BattOr")))
                     else returns false)
      | VUndefined | VNull | VBoolean _ | VNumber _ | VBigInt _
      | VSymbol _ => returns false
      end)
  /\ (forall s,
        canImport (VStringObject s) = returns (startsWith s (js "# BattOr"))).
Proof.
  split.
  - intros [| | b | n | z | d | s | o]; try reflexivity.
    + unfold canImport. now rewrite test_header.
    + unfold canImport.
      destruct (onStringPrototypeChain o) as [effects [[|]|error]];
        try reflexivity.
      simpl. destruct (stringConversion o) as [effects' [s|error]];
        [|reflexivity].
      simpl. now rewrite test_header.
  - intros s. unfold canImport, VStringObject. simpl.
    now rewrite test_header.
Qed.

(** C9, as stated, fails.  An object made with
    [Object.create(String.prototype)] is an instance of [String], so line 47
    converts it, and the conversion throws; a String object with a
    [toString] of its own has that method's effects. *)
Lemma C9_canImport_can_throw :
  canImport (VObject bareStringInstance) = ([], Throw (js "TypeError"))
  /\ canImport (VObject loggingStringObject) = ([js "log"], Normal true).
Proof. split; reflexivity. Qed.

End CanImportClaims.

Section LongTasksClaims.
Import JSString JSNumber LongTasks LongTasksFacts.

Context {Numeric : Type} `{NumericOps Numeric}.

(** C4, at the input where the code departs from it.  A top-level task
    of duration exactly 50 does not exceed the threshold of 50, and the
    metric adds it to the histogram all the same.  The rest of the claim
    holds: tasks of duration 100 and 60 are added, one of duration 40 is
    not, and the histogram is built over the range from 50 to 1000. *)
Theorem C4_task_of_exactly_50_is_added :
  lt LONG_TASK_MS (duration (task (js "t50") 0 50)) = false
  /\ (forall values : list (NumericValue Numeric),
        longTasksMetric values (oneRenderer [task (js "t50") 0 50]) =
        values
          ++ [{| name := js "long tasks";
                 numeric := add (build LONG_TASK_NUMERIC_BUILDER)
                                (ofZ 50) (js "t50") |}])
  /\ (forall values : list (NumericValue Numeric),
        longTasksMetric
          values
          (oneRenderer [task (js "A") 0 100; task (js "B") 100 40;
                        task (js "C") 200 60]) =
        values
          ++ [{| name := js "long tasks";
                 numeric := add (add (build LONG_TASK_NUMERIC_BUILDER)
                                     (ofZ 100) (js "A"))
                                (ofZ 60) (js "C") |}])
  /\ range LONG_TASK_NUMERIC_BUILDER = fromExplicitRange (ofZ 50) (ofZ 1000).
Proof.
  split; [reflexivity|].
  split; [|split; [|reflexivity]];
    intros values; rewrite longTasksMetric_spec; reflexivity.
Qed.

End LongTasksClaims.

(** * Further properties *)

(** ** Numbers that rounding produces *)

Module NumberInvariants.
Import JSString JSNumber PropertySpec JSNumberFacts.

Lemma iter_pos_invariant {A : Type} (P : A -> Prop) (f : A -> A) :
  (forall x, P x -> P (f x)) ->
  forall p x, P x -> P (iter_pos f p x).
Proof. intros Hf. induction p; intros x Hx; simpl; auto. Qed.

Lemma shr_1_nonneg mrs : (0 <= shr_m mrs)%Z -> (0 <= shr_m (shr_1 mrs))%Z.
Proof.
  destruct mrs as [m r s]. simpl. intros Hm.
  destruct m as [|[p|p|]|p]; simpl; lia.
Qed.

Lemma shr_nonneg mrs e n :
  (0 <= shr_m mrs)%Z -> (0 <= shr_m (fst (shr mrs e n)))%Z.
Proof.
  intros Hm. destruct n; simpl; auto.
  apply (iter_pos_invariant (fun x => (0 <= shr_m x)%Z)); auto.
  apply shr_1_nonneg.
Qed.

Lemma shr_fexp_nonneg m e l :
  (0 <= m)%Z -> (0 <= shr_m (fst (shr_fexp prec emax m e l)))%Z.
Proof.
  intros Hm. unfold shr_fexp. apply shr_nonneg.
  destruct l as [|[]]; exact Hm.
Qed.

Lemma round_nearest_even_nonneg m l :
  (0 <= m)%Z -> (0 <= round_nearest_even m l)%Z.
Proof.
  intros Hm. destruct l as [|[]]; simpl; try lia.
  destruct (Z.even m); lia.
Qed.

(** Rounding a mantissa that is not negative never gives NaN. *)
Lemma binary_round_aux_not_nan s m e l :
  (0 <= m)%Z -> binary_round_aux prec emax s m e l <> S754_nan.
Proof.
  intros Hm. unfold binary_round_aux.
  pose proof (shr_fexp_nonneg e l Hm) as H1.
  destruct (shr_fexp prec emax m e l) as [mrs' e']. simpl in H1.
  pose proof (shr_fexp_nonneg
                e' loc_Exact
                (round_nearest_even_nonneg (loc_of_shr_record mrs') H1))
    as H2.
  destruct (shr_fexp prec emax _ e' loc_Exact) as [mrs'' e'']. simpl in H2.
  destruct (shr_m mrs''); [discriminate| |lia].
  destruct (Z.leb e'' (emax - prec)); discriminate.
Qed.

Lemma div_core_nonneg m1 e1 m2 e2 :
  (0 <= m1)%Z -> (0 < m2)%Z ->
  (0 <= fst (fst (SFdiv_core_binary prec emax m1 e1 m2 e2)))%Z.
Proof.
  intros H1 H2. unfold SFdiv_core_binary.
  set (m' := match (e1 - e2 - _)%Z with
             | Z0 => m1
             | Zpos _ => Z.shiftl m1 _
             | Zneg _ => 0%Z
             end).
  assert (Hm' : (0 <= m')%Z).
  { unfold m'. destruct (e1 - e2 - _)%Z; try lia.
    now apply Z.shiftl_nonneg. }
  pose proof (Z_div_mod m' m2 ltac:(lia)) as Hdiv.
  destruct (Z.div_eucl m' m2) as [q r]. simpl. nia.
Qed.

Lemma ofDecimal_not_nan neg m k : ofDecimal neg m k <> NaN.
Proof.
  unfold ofDecimal. destruct m as [|p]; [discriminate|].
  pose proof (@div_core_nonneg (Z.pos p) 0 (10 ^ Z.of_nat k) 0
                               ltac:(lia) ltac:(lia)) as Hq.
  destruct (SFdiv_core_binary prec emax (Z.pos p) 0 (10 ^ Z.of_nat k) 0)
    as [[q e] l].
  simpl in Hq. now apply binary_round_aux_not_nan.
Qed.

Lemma div_1000_not_nan x : x <> NaN -> div x (ofZ 1000) <> NaN.
Proof.
  destruct x as [s|s| |s m e]; intros Hx;
    [discriminate|discriminate|contradiction|].
  unfold div, SFdiv.
  change (ofZ 1000) with (S754_finite false 8796093022208000 (-43)).
  cbv iota beta.
  pose proof (@div_core_nonneg (Z.pos m) e (Z.pos 8796093022208000) (-43)
                               ltac:(lia) ltac:(lia)) as Hq.
  destruct (SFdiv_core_binary prec emax (Z.pos m) e
                              (Z.pos 8796093022208000) (-43))
    as [[mz ez] lz].
  simpl in Hq. now apply binary_round_aux_not_nan.
Qed.

(** The values that are not below zero and not NaN. *)
Lemma notNegative_cases x :
  notNegative x -> x <> NaN ->
  (exists s, x = S754_zero s) \/ x = S754_infinity false
  \/ exists m e, x = S754_finite false m e.
Proof.
  unfold notNegative. destruct x as [s|s| |s m e]; intros Hx Hnan.
  - left. now exists s.
  - destruct s; [discriminate|]. auto.
  - now contradiction Hnan.
  - destruct s; [discriminate|]. right. right. now exists m, e.
Qed.

Lemma mul_finite_facts m1 e1 m2 e2 :
  mul (S754_finite false m1 e1) (S754_finite false m2 e2) <> NaN
  /\ notNegative (mul (S754_finite false m1 e1) (S754_finite false m2 e2)).
Proof.
  unfold mul, SFmul, notNegative. simpl xorb. split.
  - apply binary_round_aux_not_nan. lia.
  - apply not_lt_zero_positive.
Qed.

(** The product of two values that are not below zero is not below zero;
    it is NaN exactly when one is infinite and the other zero. *)
Lemma mul_notNegative x y :
  notNegative x -> notNegative y -> x <> NaN -> y <> NaN ->
  notNegative (mul x y)
  /\ (mul x y = NaN <->
      isInfinite x && isZero y || isZero x && isInfinite y = true).
Proof.
  intros Hx Hy Hxn Hyn.
  destruct (notNegative_cases Hx Hxn) as [[sx ->]|[->|(mx & ex & ->)]];
    destruct (notNegative_cases Hy Hyn) as [[sy ->]|[->|(my & ey & ->)]];
    try (split; [reflexivity|split; [discriminate|discriminate]]);
    try (split; [reflexivity|split; reflexivity]).
  destruct (mul_finite_facts mx ex my ey) as [Hnan Hpos].
  split; [exact Hpos|]. split; [contradiction|discriminate].
Qed.

End NumberInvariants.


(** ** Trimming and splitting *)

Module StringInvariants.
Import JSString.

Lemma dropWhile_app p a b :
  dropWhile p (a ++ b) =
  if forallb p a then dropWhile p b else dropWhile p a ++ b.
Proof.
  induction a as [|x a IH]; simpl; [reflexivity|].
  destruct (p x); simpl; [exact IH|reflexivity].
Qed.

Lemma dropWhile_all p a : forallb p a = true -> dropWhile p a = [].
Proof.
  induction a as [|x a IH]; simpl; [reflexivity|].
  destruct (p x); simpl; [exact IH|discriminate].
Qed.

Lemma forallb_reverse (p : char -> bool) l :
  forallb p (rev l) = forallb p l.
Proof.
  induction l as [|x l IH]; simpl; [reflexivity|].
  rewrite forallb_app, IH. simpl. rewrite andb_true_r. apply andb_comm.
Qed.

Lemma trimStart_pad pad s :
  forallb isWhiteSpace pad = true -> trimStart (pad ++ s) = trimStart s.
Proof. intros Hpad. unfold trimStart. now rewrite dropWhile_app, Hpad. Qed.

Lemma trimEnd_pad s pad :
  forallb isWhiteSpace pad = true -> trimEnd (s ++ pad) = trimEnd s.
Proof.
  intros Hpad. unfold trimEnd.
  rewrite rev_app_distr, dropWhile_app, forallb_reverse, Hpad. reflexivity.
Qed.

(** White space around a string does not change what trimming gives. *)
Lemma trim_pad (pad1 s pad2 : jsstring) :
  forallb isWhiteSpace pad1 = true -> forallb isWhiteSpace pad2 = true ->
  trim (pad1 ++ s ++ pad2) = trim s.
Proof.
  intros H1 H2. unfold trim. rewrite trimStart_pad by exact H1.
  unfold trimStart. rewrite dropWhile_app.
  destruct (forallb isWhiteSpace s) eqn:Hs.
  - rewrite (@dropWhile_all isWhiteSpace pad2) by exact H2.
    now rewrite (@dropWhile_all isWhiteSpace s) by exact Hs.
  - now apply trimEnd_pad.
Qed.

Lemma dropWhile_snoc p l x :
  p x = false -> exists l', dropWhile p (l ++ [x]) = l' ++ [x].
Proof.
  intros Hx. induction l as [|y l IH]; simpl.
  - rewrite Hx. now exists [].
  - destruct (p y); [exact IH|]. now exists (y :: l).
Qed.

(** Trimming keeps a first character that is not white space. *)
Lemma trim_head x (t : jsstring) :
  isWhiteSpace x = false -> exists t', trim (x :: t) = x :: t'.
Proof.
  intros Hx. unfold trim, trimStart, trimEnd. simpl dropWhile at 2.
  rewrite Hx. simpl rev at 2.
  destruct (@dropWhile_snoc isWhiteSpace (rev t) x Hx) as [l' Hl'].
  rewrite Hl', rev_app_distr. simpl. now exists (rev l').
Qed.

Lemma split_nonempty sep s : split sep s <> [].
Proof.
  destruct s as [|c s]; simpl; [discriminate|].
  destruct (c =? sep)%N; [discriminate|].
  destruct (split sep s); discriminate.
Qed.

(** Splitting at a separator splits the pieces on either side of it. *)
Lemma split_app sep (e1 e2 : jsstring) :
  split sep (e1 ++ sep :: e2) = split sep e1 ++ split sep e2.
Proof.
  induction e1 as [|c e1 IH]; simpl.
  - now rewrite N.eqb_refl.
  - destruct (c =? sep)%N; [now rewrite IH|].
    rewrite IH. pose proof (split_nonempty sep e1) as Hne.
    destruct (split sep e1) as [|piece pieces]; [contradiction|reflexivity].
Qed.

(** A piece that precedes the first separator stays in front. *)
Lemma split_prefix sep (p s : jsstring) :
  forallb (fun c => negb (c =? sep)%N) p = true ->
  exists piece pieces,
    split sep s = piece :: pieces
    /\ split sep (p ++ s) = (p ++ piece) :: pieces.
Proof.
  intros Hp. induction p as [|c p IH]; simpl.
  - pose proof (split_nonempty sep s) as Hne.
    destruct (split sep s) as [|piece pieces]; [contradiction|].
    now exists piece, pieces.
  - simpl in Hp. apply andb_prop in Hp as [Hc Hp].
    destruct (IH Hp) as (piece & pieces & Hs & Hps).
    exists piece, pieces. split; [exact Hs|].
    apply negb_true_iff in Hc. now rewrite Hc, Hps.
Qed.

Lemma startsWith_app (s p : jsstring) :
  startsWith s p = true -> exists t, s = p ++ t.
Proof.
  revert s. induction p as [|a p IH]; intros s Hs.
  - now exists s.
  - destruct s as [|c s]; [discriminate|]. simpl in Hs.
    apply andb_prop in Hs as [Hc Hs]. apply N.eqb_eq in Hc. subst c.
    destruct (IH s Hs) as [t ->]. now exists t.
Qed.

End StringInvariants.

(** ** What every parsed sample satisfies *)

Module ImporterInvariants.
Import JSString RegExp JSNumber JSValue TraceModel Battor BattorSpec.
Import PropertySpec RegExpFacts BattorFacts ShapeFacts NumberInvariants.

Section Importer.
Context {M : Type} `{ClockSyncManagerOps M}.

(** A property of the sample of every accepted line holds of every sample
    the loop returns. *)
Lemma loop_Forall (P : Sample -> Prop) :
  (forall s groups,
      exec battorDataLineRE s = Some groups ->
      lt (voltage (sampleOf groups)) (ofZ 0)
      || lt (current (sampleOf groups)) (ofZ 0) = false ->
      P (sampleOf groups)) ->
  forall lines (model : Model M) samples,
    Forall P samples ->
    Forall P (snd (linesToSamples_loop lines model samples)).
Proof.
  intros HP. induction lines as [|line rest IH]; intros model samples Hs.
  - exact Hs.
  - rewrite loop_cons.
    destruct (Nat.eqb (length (trim line)) 0); [now apply IH|].
    destruct (startsWith (trim line) (js "#")); [now apply IH|].
    destruct (exec battorDataLineRE (trim line)) as [groups|] eqn:Hexec;
      [|now apply IH].
    destruct (lt _ _ || lt _ _) eqn:Hneg; [now apply IH|].
    apply IH, Forall_app. split; [exact Hs|].
    constructor; [|constructor]. exact (HP _ _ Hexec Hneg).
Qed.

Lemma newBattorImporter_Forall (P : Sample -> Prop) :
  (forall s groups,
      exec battorDataLineRE s = Some groups ->
      lt (voltage (sampleOf groups)) (ofZ 0)
      || lt (current (sampleOf groups)) (ofZ 0) = false ->
      P (sampleOf groups)) ->
  forall (model : Model M) events,
    Forall P (samples_ (snd (newBattorImporter model events))).
Proof.
  intros HP model events. unfold newBattorImporter, linesToSamples_.
  pose proof (@loop_Forall P HP (split newline events) model []) as Hs.
  destruct (linesToSamples_loop (split newline events) model [])
    as [model1 samples].
  apply Hs. constructor.
Qed.

Lemma fold_importWarning_frame warnings :
  forall model : Model M,
    device (fold_left importWarning warnings model) = device model
    /\ clockSyncManager (fold_left importWarning warnings model)
       = clockSyncManager model
    /\ importWarnings (fold_left importWarning warnings model)
       = importWarnings model ++ warnings.
Proof.
  induction warnings as [|w ws IH]; intros model; simpl.
  - now rewrite app_nil_r.
  - destruct (IH (importWarning model w)) as (Hd & Hm & Hw).
    rewrite Hd, Hm, Hw. simpl. now rewrite <- app_assoc.
Qed.

(** The warnings and samples the lines add, counted and typed. *)
Lemma loop_frame_counted lines :
  exists warnings parsed,
    (forall (model : Model M) samples,
        linesToSamples_loop lines model samples =
        (fold_left importWarning warnings model, samples ++ parsed))
    /\ Forall (fun w => type w = js "parse_error") warnings
    /\ length warnings + length parsed <= length lines.
Proof.
  induction lines as [|line rest (warnings & parsed & IH & Htype & Hlen)].
  - exists [], []. split; [|split; [constructor|simpl; lia]].
    intros model samples. simpl. now rewrite app_nil_r.
  - destruct (Nat.eqb (length (trim line)) 0) eqn:Hblank;
      [exists warnings, parsed; split; [|split; [exact Htype|simpl; lia]];
       intros model samples; now rewrite loop_cons, Hblank|].
    destruct (startsWith (trim line) (js "#")) eqn:Hcomment;
      [exists warnings, parsed; split; [|split; [exact Htype|simpl; lia]];
       intros model samples; now rewrite loop_cons, Hblank, Hcomment|].
    destruct (exec battorDataLineRE (trim line)) as [groups|] eqn:Hexec.
    + destruct (lt (voltage (sampleOf groups)) (ofZ 0)
                || lt (current (sampleOf groups)) (ofZ 0)) eqn:Hneg.
      * exists (negativeLine (trim line) :: warnings), parsed.
        split; [|split; [now constructor|simpl; lia]].
        intros model samples.
        now rewrite loop_cons, Hblank, Hcomment, Hexec, Hneg, IH.
      * exists warnings, (sampleOf groups :: parsed).
        split; [|split; [exact Htype|simpl; lia]].
        intros model samples.
        rewrite loop_cons, Hblank, Hcomment, Hexec, Hneg, IH.
        now rewrite <- app_assoc.
    + exists (unrecognizedLine (trim line) :: warnings), parsed.
      split; [|split; [now constructor|simpl; lia]].
      intros model samples.
      now rewrite loop_cons, Hblank, Hcomment, Hexec, IH.
Qed.

(** Parsing two lists of lines one after the other. *)
Lemma linesToSamples_app l1 l2 (model : Model M) :
  linesToSamples_ model (l1 ++ l2) =
  let '(model1, samples1) := linesToSamples_ model l1 in
  let '(model2, samples2) := linesToSamples_ model1 l2 in
  (model2, samples1 ++ samples2).
Proof.
  unfold linesToSamples_. rewrite loop_app.
  destruct (linesToSamples_loop l1 model []) as [model1 samples1].
  rewrite <- (app_nil_r samples1) at 1. apply loop_acc.
Qed.

(** A blank line or a comment in the middle of the input adds nothing. *)
Lemma skippedLine_adds_nothing (model : Model M) pre line post :
  skippedLine line = true ->
  linesToSamples_ model (pre ++ line :: post) =
  linesToSamples_ model (pre ++ post).
Proof.
  intros Hskip. unfold linesToSamples_. rewrite !loop_app.
  destruct (linesToSamples_loop pre model []) as [model1 samples1].
  rewrite loop_cons. unfold skippedLine in Hskip.
  destruct (Nat.eqb (length (trim line)) 0); [reflexivity|].
  rewrite orb_false_l in Hskip. now rewrite Hskip.
Qed.

(** The sample of an accepted line holds no NaN but, possibly, in its
    power. *)
Lemma sampleOf_not_nan s groups :
  exec battorDataLineRE s = Some groups ->
  ts (sampleOf groups) <> NaN
  /\ voltage (sampleOf groups) <> NaN
  /\ current (sampleOf groups) <> NaN.
Proof.
  intros Hexec.
  destruct (@exec_fields_decimal _ _ Hexec 1 ltac:(auto))
    as (f1 & n1 & i1 & p1 & _ & _ & _ & _ & H1).
  destruct (@exec_fields_decimal _ _ Hexec 2 ltac:(auto))
    as (f2 & n2 & i2 & p2 & _ & _ & _ & _ & H2).
  destruct (@exec_fields_decimal _ _ Hexec 3 ltac:(auto))
    as (f3 & n3 & i3 & p3 & _ & _ & _ & _ & H3).
  unfold sampleOf. simpl. rewrite H1, H2, H3.
  repeat split;
    [|apply div_1000_not_nan|apply div_1000_not_nan];
    apply ofDecimal_not_nan.
Qed.

End Importer.

End ImporterInvariants.

(** ** Further properties of the importer *)

Section ImporterProperties.
Import JSString RegExp JSNumber JSValue TraceModel Battor BattorSpec.
Import PropertySpec RegExpFacts BattorFacts ShapeFacts MatchFacts.
Import ImportFacts HeaderFacts NumberInvariants StringInvariants.
Import ImporterInvariants.

Context {M : Type} `{ClockSyncManagerOps M}.

(** X1. The data-line pattern matches a string, with given captures,
    exactly when the string is three decimals separated by white space,
    followed by nothing or by white space and a token without white space in
    angle brackets; the captures are the three decimals and the token. *)
Theorem X1_data_line_pattern_is_the_grammar :
  forall s f1 f2 f3 sync,
    (exists groups,
        exec battorDataLineRE s = Some groups
        /\ groups 1 = Some f1 /\ groups 2 = Some f2 /\ groups 3 = Some f3
        /\ groups 4 = sync)
    <->
    (exists w1 w2 tail,
        s = f1 ++ w1 ++ f2 ++ w2 ++ f3 ++ tail
        /\ isDecimal f1 /\ runOf isWhiteSpace w1
        /\ isDecimal f2 /\ runOf isWhiteSpace w2
        /\ isDecimal f3 /\ syncTailOf tail sync).
Proof.
  intros s f1 f2 f3 sync. split.
  - intros (groups & Hexec & H1 & H2 & H3 & H4).
    apply exec_dataLine_inv in Hexec
      as (g1 & w1 & g2 & w2 & g3 & tail & -> & Hf1 & Hw1 & Hf2 & Hw2 & Hf3
          & E1 & E2 & E3 & Htail).
    rewrite H1 in E1. rewrite H2 in E2. rewrite H3 in E3.
    inversion E1; inversion E2; inversion E3; subst g1 g2 g3.
    exists w1, w2, tail. split; [reflexivity|].
    repeat (split; [assumption|]). unfold syncTailOf.
    destruct Htail as [(-> & E4)|(w & id & -> & Hw & Hid & E4)];
      rewrite H4 in E4; subst sync.
    + now left.
    + right. now exists w, id.
  - intros (w1 & w2 & tail & -> & Hf1 & Hw1 & Hf2 & Hw2 & Hf3 & Htail).
    now apply exec_dataLine_complete.
Qed.

(** X2. No sample the importer holds has NaN for its timestamp, its
    voltage or its current: every field it reads is a decimal, which
    [parseFloat] rounds to a number or to an infinity. *)
Theorem X2_samples_hold_no_NaN :
  forall (model : Model M) events,
    Forall (fun sample =>
              ts sample <> NaN /\ voltage sample <> NaN
              /\ current sample <> NaN)
           (samples_ (snd (newBattorImporter model events))).
Proof.
  apply newBattorImporter_Forall.
  intros s groups Hexec _. exact (@sampleOf_not_nan s groups Hexec).
Qed.

(** X3. No sample the importer holds has a voltage, a current or a power
    below zero, and so no power sample that [importEvents] appends to a new
    series has a power below zero. *)
Theorem X3_nothing_below_zero :
  forall (model : Model M) events,
    let '(model1, importer) := newBattorImporter model events in
    Forall (fun sample =>
              notNegative (voltage sample) /\ notNegative (current sample)
              /\ notNegative (Sample_power sample))
           (samples_ importer)
    /\ (powerSeries (device model1) = None ->
        exists series,
          powerSeries (device (importEvents importer model1)) = Some series
          /\ Forall (fun powerSample => notNegative (power powerSample))
                    series).
Proof.
  intros model events.
  pose proof (@newBattorImporter_Forall
                M
                (fun sample =>
                   notNegative (voltage sample)
                   /\ notNegative (current sample)
                   /\ notNegative (Sample_power sample))) as Hall.
  specialize (Hall ltac:(
    intros s groups Hexec Hneg;
    apply orb_false_iff in Hneg as [Hv Hc];
    destruct (@sampleOf_not_nan s groups Hexec) as (_ & Hvn & Hcn);
    split; [exact Hv|split; [exact Hc|]];
    exact (proj1 (mul_notNegative Hv Hc Hvn Hcn))) model events).
  destruct (newBattorImporter model events) as [model1 importer].
  simpl in Hall. split; [exact Hall|].
  intros Hnone. eexists. split; [now apply importEvents_series|].
  apply Forall_map. simpl.
  eapply Forall_impl; [|exact Hall]. intros sample (_ & _ & Hp). exact Hp.
Qed.

(** X4. The power of a sample the importer holds is NaN exactly when one of
    its voltage and current is infinite and the other is zero. *)
Theorem X4_power_NaN_only_as_infinity_times_zero :
  forall (model : Model M) events,
    Forall (fun sample =>
              Sample_power sample = NaN <->
              isInfinite (voltage sample) && isZero (current sample)
              || isZero (voltage sample) && isInfinite (current sample)
              = true)
           (samples_ (snd (newBattorImporter model events))).
Proof.
  apply newBattorImporter_Forall.
  intros s groups Hexec Hneg.
  apply orb_false_iff in Hneg as [Hv Hc].
  destruct (@sampleOf_not_nan s groups Hexec) as (_ & Hvn & Hcn).
  exact (proj2 (mul_notNegative Hv Hc Hvn Hcn)).
Qed.

(** X5. A line that is blank once trimmed, or starts with [#] once
    trimmed, adds nothing: the result is that of the input without it. *)
Theorem X5_blank_and_comment_lines_add_nothing :
  forall (model : Model M) pre line post,
    skippedLine line = true ->
    linesToSamples_ model (pre ++ line :: post) =
    linesToSamples_ model (pre ++ post).
Proof.
  intros model pre line post Hskip. now apply skippedLine_adds_nothing.
Qed.

(** X6. Parsing only ever adds warnings of kind parse_error to the end of
    the log: the device and the clock sync manager are as before, the
    warnings that were there are kept in front, and the new warnings and
    the samples together are at most as many as the lines. *)
Theorem X6_parsing_only_appends_parse_errors :
  forall (model : Model M) lines,
    let '(model1, samples) := linesToSamples_ model lines in
    device model1 = device model
    /\ clockSyncManager model1 = clockSyncManager model
    /\ exists warnings,
        importWarnings model1 = importWarnings model ++ warnings
        /\ Forall (fun w => type w = js "parse_error") warnings
        /\ length warnings + length samples <= length lines.
Proof.
  intros model lines. unfold linesToSamples_.
  destruct (@loop_frame_counted M lines)
    as (warnings & parsed & Hloop & Htype & Hlen).
  rewrite Hloop.
  destruct (fold_importWarning_frame warnings model) as (Hd & Hm & Hw).
  repeat (split; [assumption|]). exists warnings. auto.
Qed.

(** X7. Two traces joined by a newline import as the first and then the
    second: the warnings of the first are logged before those of the
    second, and the samples of the first come before those of the
    second. *)
Theorem X7_joined_traces_import_in_sequence :
  forall (model : Model M) events1 events2,
    newBattorImporter model (events1 ++ newline :: events2) =
    let '(model1, importer1) := newBattorImporter model events1 in
    let '(model2, importer2) := newBattorImporter model1 events2 in
    (model2, importerOf (samples_ importer1 ++ samples_ importer2)).
Proof.
  intros model events1 events2. unfold newBattorImporter.
  rewrite split_app, linesToSamples_app.
  destruct (linesToSamples_ model (split newline events1))
    as [model1 samples1].
  destruct (linesToSamples_ model1 (split newline events2))
    as [model2 samples2].
  reflexivity.
Qed.

(** X8. A newline at the end of the trace changes nothing. *)
Theorem X8_final_newline_changes_nothing :
  forall (model : Model M) events,
    newBattorImporter model (events ++ [newline]) =
    newBattorImporter model events.
Proof.
  intros model events. unfold newBattorImporter.
  rewrite split_app, linesToSamples_app.
  destruct (linesToSamples_ model (split newline events))
    as [model1 samples1].
  simpl. now rewrite app_nil_r.
Qed.

(** X9. White space before and after a line, a carriage return at its end
    included, does not change what the line gives. *)
Theorem X9_white_space_around_a_line_is_ignored :
  forall (model : Model M) pre pad1 line pad2 post,
    forallb isWhiteSpace pad1 = true ->
    forallb isWhiteSpace pad2 = true ->
    linesToSamples_ model (pre ++ (pad1 ++ line ++ pad2) :: post) =
    linesToSamples_ model (pre ++ line :: post).
Proof.
  intros model pre pad1 line pad2 post H1 H2. unfold linesToSamples_.
  rewrite !loop_app.
  destruct (linesToSamples_loop pre model []) as [model1 samples1].
  rewrite !loop_cons. now rewrite (@trim_pad pad1 line pad2 H1 H2).
Qed.

(** X10. When [canImport] accepts a string, its first line is the header,
    and the importer passes over it without a warning: the import is that of
    the lines after it. *)
Theorem X10_accepted_header_is_passed_over :
  forall (model : Model M) events,
    canImport (VString events) = returns true ->
    exists header rest,
      split newline events = header :: rest
      /\ startsWith header (js "# BattOr") = true
      /\ newBattorImporter model events =
         (let '(model1, samples) := linesToSamples_ model rest in
          (model1, importerOf samples)).
Proof.
  intros model events Hcan.
  unfold canImport, returns in Hcan. rewrite test_header in Hcan.
  injection Hcan as Hcan.
  destruct (@startsWith_app events (js "# BattOr") Hcan) as [t ->].
  destruct (@split_prefix newline (js "# BattOr") t eq_refl)
    as (piece & pieces & _ & Hsplit).
  exists (js "# BattOr" ++ piece), pieces.
  split; [exact Hsplit|]. split; [reflexivity|].
  unfold newBattorImporter. rewrite Hsplit.
  change (linesToSamples_ model ((js "# BattOr" ++ piece) :: pieces))
    with (linesToSamples_ model ([] ++ (js "# BattOr" ++ piece) :: pieces)).
  rewrite skippedLine_adds_nothing; [reflexivity|].
  unfold skippedLine.
  destruct (@trim_head (chr "#") (js " BattOr" ++ piece) eq_refl) as [t' Ht].
  change (js "# BattOr" ++ piece) with (chr "#" :: js " BattOr" ++ piece).
  now rewrite Ht.
Qed.

(** X11. Every sync id a sample of the importer carries is a non-empty
    string without white space. *)
Theorem X11_sync_ids_are_tokens :
  forall (model : Model M) events,
    Forall syncIdShape (samples_ (snd (newBattorImporter model events))).
Proof.
  apply newBattorImporter_Forall.
  intros s groups Hexec _. unfold syncIdShape, sampleOf. simpl.
  apply exec_dataLine_inv in Hexec
    as (f1 & w1 & f2 & w2 & f3 & tail & _ & _ & _ & _ & _ & _
        & _ & _ & _ & [(_ & ->)|(w & id & _ & _ & Hid & ->)]).
  - exact I.
  - exact Hid.
Qed.

(** X12. [importClockSyncMarkers] does not remember what it registered:
    run twice on the importer of a trace, it hands the manager every marker
    a second time, after the first round. *)
Theorem X12_markers_are_registered_again :
  forall (model : Model M) events,
    let '(model1, importer) := newBattorImporter model events in
    clockSyncManager
      (importClockSyncMarkers importer
                              (importClockSyncMarkers importer model1)) =
    fold_left (fun m marker =>
                 addClockSyncMarker m BATTOR (fst marker) (snd marker))
              (syncMarkers (samples_ importer)
                 ++ syncMarkers (samples_ importer))
              (clockSyncManager model1).
Proof.
  intros model events.
  pose proof (newBattorImporter_syncIds model events) as Hs.
  destruct (newBattorImporter model events) as [model1 importer].
  simpl in Hs |- *.
  rewrite !importClockSyncMarkers_loop_spec by exact Hs.
  now rewrite fold_left_app.
Qed.

(** X16. [canImport] does not trim: a string that starts with white space,
    a byte order mark included, is refused whatever follows, although the
    line parser would take the same header line for a comment. *)
Theorem X16_leading_white_space_defeats_detection :
  forall c s,
    isWhiteSpace c = true ->
    canImport (VString (c :: s)) = returns false
    /\ canImport (VStringObject (c :: s)) = returns false
    /\ (startsWith (trim s) (js "#") = true ->
        skippedLine (c :: s) = true).
Proof.
  intros c s Hc.
  assert (Hhead : (c =? 35)%N = false).
  { apply N.eqb_neq. intros ->. discriminate. }
  split; [|split].
  - unfold canImport. rewrite test_header. simpl. now rewrite Hhead.
  - unfold canImport, VStringObject. simpl. rewrite test_header. simpl.
    now rewrite Hhead.
  - intros Hs. unfold skippedLine.
    assert (Htrim : trim (c :: s) = trim s).
    { replace (c :: s) with ([c] ++ s ++ [])
        by (simpl; now rewrite app_nil_r).
      apply trim_pad; [simpl; now rewrite Hc|reflexivity]. }
    rewrite Htrim, Hs. apply orb_true_r.
Qed.

End ImporterProperties.

Section ImporterPropertyWitnesses.
Import JSString RegExp JSNumber JSValue TraceModel Battor BattorSpec.
Import PropertySpec Examples.

Lemma X5_blank_and_comment_lines_add_nothing_witness :
  skippedLine indentedComment = true
  /\ linesToSamples_ emptyModel
                     ([js "# BattOr"] ++ indentedComment :: [syncLine])
     = linesToSamples_ emptyModel ([js "# BattOr"] ++ [syncLine]).
Proof.
  split; [vm_compute; reflexivity|].
  apply (@X5_blank_and_comment_lines_add_nothing
           _ emptyModel [js "# BattOr"] indentedComment [syncLine]).
  vm_compute. reflexivity.
Defined.

Lemma X9_white_space_around_a_line_is_ignored_witness :
  forallb isWhiteSpace (js "  ") = true
  /\ forallb isWhiteSpace [13%N] = true
  /\ linesToSamples_ emptyModel
                     ([js "# BattOr"]
                        ++ (js "  " ++ syncLine ++ [13%N]) :: [[]])
     = linesToSamples_ emptyModel ([js "# BattOr"] ++ syncLine :: [[]]).
Proof.
  split; [vm_compute; reflexivity|].
  split; [vm_compute; reflexivity|].
  apply (@X9_white_space_around_a_line_is_ignored
           _ emptyModel [js "# BattOr"] (js "  ") syncLine [13%N] [[]]);
    vm_compute; reflexivity.
Defined.

Lemma X10_accepted_header_is_passed_over_witness :
  canImport (VString endToEndTrace) = returns true
  /\ exists header rest,
      split newline endToEndTrace = header :: rest
      /\ startsWith header (js "# BattOr") = true
      /\ newBattorImporter emptyModel endToEndTrace =
         (let '(model1, samples) := linesToSamples_ emptyModel rest in
          (model1, importerOf samples)).
Proof.
  split; [vm_compute; reflexivity|].
  apply (@X10_accepted_header_is_passed_over _ emptyModel endToEndTrace).
  vm_compute. reflexivity.
Defined.

Lemma X16_leading_white_space_defeats_detection_witness :
  isWhiteSpace 65279%N = true
  /\ canImport (VString (65279%N :: endToEndTrace)) = returns false
  /\ canImport (VString endToEndTrace) = returns true.
Proof.
  split; [reflexivity|].
  split; [|vm_compute; reflexivity].
  exact (proj1 (@X16_leading_white_space_defeats_detection
                  65279%N endToEndTrace eq_refl)).
Defined.

(** The overflow line gives a sample whose power is NaN, and [importEvents]
    appends it. *)
Lemma overflow_line_power_is_NaN :
  let '(model, importer) := newBattorImporter emptyModel overflowLine in
  importWarnings model = []
  /\ map voltage (samples_ importer) = [S754_infinity false]
  /\ map current (samples_ importer) = [S754_zero false]
  /\ map Sample_power (samples_ importer) = [NaN]
  /\ powerSeries (device (importEvents importer model))
     = Some [{| start := S754_zero false; power := NaN |}].
Proof. vm_compute. repeat split; reflexivity. Qed.

End ImporterPropertyWitnesses.

(** ** Further properties of the long-tasks metric *)

Section LongTasksProperties.
Import JSString JSNumber LongTasks LongTasksSpec LongTasksFacts.

Context {Numeric : Type} `{NumericOps Numeric}.

(** X13. The metric keeps the values it is given and adds exactly one,
    named "long tasks", after them.  Its numeric is a fresh build of the
    builder, to which were added, in order, the duration and the stable id
    of every top-level slice of every renderer main thread whose duration
    is not below 50; a renderer without a main thread adds nothing. *)
Theorem X13_metric_adds_one_value :
  forall (values : list (NumericValue Numeric)) model,
    longTasksMetric values model =
    values
      ++ [{| name := js "long tasks";
             numeric :=
               fold_left (fun numeric entry =>
                            add numeric (fst entry) (snd entry))
                         (map entryOf
                              (filter notShort (mainThreadTasks model)))
                         (build LONG_TASK_NUMERIC_BUILDER) |}].
Proof.
  intros values model. rewrite longTasksMetric_spec. do 3 f_equal.
  generalize (build LONG_TASK_NUMERIC_BUILDER).
  induction (filter notShort (mainThreadTasks model)) as [|task rest IH];
    intros numeric; simpl; [reflexivity|apply IH].
Qed.

(** X14. With or without a range, the helper calls the callback on exactly
    the top-level slices of the thread that the range lets through and whose
    duration is not below LONG_TASK_MS, in the order of the slices, each
    call starting from the state the one before left. *)
Theorem X14_callback_sees_long_tasks_in_range :
  forall (A : Type) (thread : Thread) opt_range (cb : A -> Slice -> A) acc,
    iterateLongTopLevelTasksOnThreadInRange thread opt_range cb acc =
    fold_left cb
              (filter (fun slice => inRange opt_range slice && notShort slice)
                      (topLevelSlices thread))
              acc.
Proof.
  intros A [slices] opt_range cb.
  unfold iterateLongTopLevelTasksOnThreadInRange. simpl.
  induction slices as [|slice rest IH]; intros acc; simpl; [reflexivity|].
  unfold notShort at 1.
  destruct opt_range as [range|]; simpl.
  - destruct (intersectsExplicitRangeExclusive _ _ _); simpl; [|apply IH].
    destruct (lt (duration slice) LONG_TASK_MS); simpl; apply IH.
  - destruct (lt (duration slice) LONG_TASK_MS); simpl; apply IH.
Qed.

End LongTasksProperties.

Section LongTasksLogProperties.
Import JSString JSNumber LongTasks LongTasksSpec LongTasksFacts.


End LongTasksLogProperties.

(** ** The order of the power samples *)

Section OrderClaim.
Import JSString RegExp JSNumber JSValue TraceModel Battor BattorSpec.
Import Examples BattorFacts ImportFacts StringInvariants ImporterInvariants.

Context {M : Type} `{ClockSyncManagerOps M}.


End OrderClaim.

Section OrderClaimWitness.
Import JSString RegExp JSNumber JSValue TraceModel Battor BattorSpec.
Import Examples.


End OrderClaimWitness.

